(** * Coinafrica scraper: the scrape / extract / clean pipeline

    A shallow embedding of [app/my_data_app.py] (the functions
    [clean_price_to_int], [extract_items_from_page_text], [fetch_page],
    [scrape_category] and [create_tables_if_not_exists]) together with the
    properties the specification states about them.

    Conventions.
    - A Python [str] is a [string] (a character is one 8-bit code), [None] is
      the [None] of [option], a Python [int] is a [Z].
    - The outside world (HTTP server, wall clock, HTML parser, what the
      platform's [time.sleep] refuses, what pandas makes of integers beyond
      int64) is an [environment] of oracles; effectful functions live in the
      monad [M], which threads a [world] (the memo table of [st.cache_data],
      the number of requests and clock reads performed so far, the trace of
      observable events) and may raise a Python exception.
    - [int] refuses a text of more than 4300 digits (the default limit of
      CPython), and a frame built from the accumulated rows holds the prices
      as pandas infers the column: int64, float64 with NaN, or objects. *)

From Stdlib Require Import ZArith QArith.QArith_base Ascii String DecimalString.
From Stdlib Require DecimalPos.
From stdpp Require Import gmap strings list fin_maps.

Local Open Scope string_scope.
Local Open Scope Z_scope.

#[local] Set Warnings "-register-all,-clear-no-such-hyp".

(* ===================================================================== *)
(** * Part I: the program                                                 *)
(* ===================================================================== *)

(** ** Python truthiness of an optional string *)

(** [not x] is true for [None] and for the empty string. *)
Definition truthy (o : option string) : bool :=
  match o with
  | None => false
  | Some EmptyString => false
  | Some (String _ _) => true
  end.

(** [a or b]. *)
Definition py_or (a b : option string) : option string :=
  if truthy a then a else b.

(** ** Python exceptions *)

Inductive exn : Type :=
  | RequestException
  | HTTPError (status_code : Z)
  | ValueError
  | OverflowError
  | OSError
  | RegexError
  | StreamlitAPIException.

(** ** Price normaliser: [clean_price_to_int] *)

(** The character class [0-9] of the regular expression. *)
Definition is_digit (c : ascii) : bool :=
  let n := Z.of_N (N_of_ascii c) in (48 <=? n) && (n <=? 57).

(** [re.sub(r"[^0-9]", "", s)]: every character outside [0-9] is replaced by
    the empty string, the others are kept in order. *)
Fixpoint re_sub_non_digits (s : string) : string :=
  match s with
  | EmptyString => EmptyString
  | String c r =>
      if is_digit c then String c (re_sub_non_digits r) else re_sub_non_digits r
  end.

Definition digit_value (c : ascii) : Z := Z.of_N (N_of_ascii c) - 48.

(** The value of a string of decimal digits, most significant first. *)
Fixpoint int_acc (acc : Z) (digits : string) : Z :=
  match digits with
  | EmptyString => acc
  | String c r => int_acc (10 * acc + digit_value c) r
  end.

(** [sys.get_int_max_str_digits()], at its default. *)
Definition int_max_str_digits : nat := 4300.

(** [int(digits)] on a string of decimal digits.  Python integers are
    unbounded, but [int] refuses a numeral of more than
    [int_max_str_digits] digits with ValueError. *)
Definition int_of_digits (digits : string) : exn + Z :=
  if (int_max_str_digits <? String.length digits)%nat then inl ValueError
  else inr (int_acc 0 digits).

(** Every character of the string is a decimal digit. *)
Fixpoint all_digits (s : string) : bool :=
  match s with
  | EmptyString => true
  | String c r => is_digit c && all_digits r
  end.

Definition clean_price_to_int (price_raw : option string) : exn + option Z :=
  match price_raw with
  | None => inr None
  | Some s =>
      if negb (truthy (Some s)) then inr None
      else
        let digits := re_sub_non_digits s in
        if truthy (Some digits)
        then match int_of_digits digits with
             | inl e => inl e
             | inr n => inr (Some n)
             end
        else inr None
  end.

(** ** The parsed page: the part of BeautifulSoup the extractor uses *)

(** A parse tree.  A text node is a plain [NavigableString], a [CData]
    section, or a string of another class ([SpecialString]: Comment,
    Doctype, Declaration, ProcessingInstruction, and the Script, Stylesheet,
    TemplateString and ruby strings the parser makes of the text inside
    script, style, template, rt and rp tags).  A tag carries its name, its
    [class] attribute (the one multi-valued attribute the extractor looks
    at, kept by BeautifulSoup as the list of its whitespace-separated tokens;
    [None] when the tag has no [class]), its other attributes as a
    dictionary, and its children. *)
Inductive node : Type :=
  | NavigableString (s : string)
  | CData (s : string)
  | SpecialString (s : string)
  | Tag (name : string) (class : option (list string))
        (attrs : gmap string string) (contents : list node).

(** [tag.descendants]: all nodes below a tag, in document order. *)
Fixpoint descendants (n : node) : list node :=
  match n with
  | NavigableString _ | CData _ | SpecialString _ => []
  | Tag _ _ _ cs =>
      (fix go (l : list node) : list node :=
         match l with
         | [] => []
         | c :: r => (c :: descendants c ++ go r)%list
         end) cs
  end.

(** Descendants of the document root, whose children are [top]. *)
Definition soup_descendants (top : list node) : list node :=
  descendants (Tag "[document]" None ∅ top).

(** [' '.join(tokens)]. *)
Fixpoint join_space (tokens : list string) : string :=
  match tokens with
  | [] => ""
  | [t] => t
  | t :: r => t ++ " " ++ join_space r
  end.

(** How BeautifulSoup matches [class_=target]: some token of the attribute
    equals the target, or the whole attribute value (tokens joined by one
    space) does. *)
Definition class_matches (class : option (list string)) (target : string) : bool :=
  match class with
  | None => false
  | Some tokens =>
      existsb (String.eqb target) tokens || String.eqb (join_space tokens) target
  end.

Definition tag_matches (name target : string) (n : node) : bool :=
  match n with
  | NavigableString _ | CData _ | SpecialString _ => false
  | Tag nm class _ _ => String.eqb nm name && class_matches class target
  end.

(** [soup.find_all(name, class_=target)]. *)
Definition find_all (top : list node) (name target : string) : list node :=
  List.filter (tag_matches name target) (soup_descendants top).

(** [tag.find(name, class_=target)]: the first matching descendant. *)
Definition find (n : node) (name target : string) : option node :=
  head (List.filter (tag_matches name target) (descendants n)).

(** [tag.get(key)]. *)
Definition tag_get (n : node) (key : string) : option string :=
  match n with
  | NavigableString _ | CData _ | SpecialString _ => None
  | Tag _ _ attrs _ => attrs !! key
  end.

(** Python's [str.isspace] on one character. *)
Definition is_space (c : ascii) : bool :=
  let n := Z.of_N (N_of_ascii c) in
  ((9 <=? n) && (n <=? 13)) || ((28 <=? n) && (n <=? 32))
  || (n =? 133) || (n =? 160).

Fixpoint lstrip (s : string) : string :=
  match s with
  | EmptyString => EmptyString
  | String c r => if is_space c then lstrip r else s
  end.

Fixpoint rstrip (s : string) : string :=
  match s with
  | EmptyString => EmptyString
  | String c r =>
      match rstrip r with
      | EmptyString => if is_space c then EmptyString else String c EmptyString
      | r' => String c r'
      end
  end.

(** [s.strip()]. *)
Definition strip (s : string) : string := rstrip (lstrip s).

(** The strings [get_text] looks at: the text nodes below a node whose
    class is exactly NavigableString or CData, in document order; strings of
    any other class are skipped. *)
Definition strings_of (n : node) : list string :=
  omap (fun d => match d with
                 | NavigableString s => Some s
                 | CData s => Some s
                 | SpecialString _ => None
                 | Tag _ _ _ _ => None
                 end)
       (descendants n).

(** [tag.get_text(strip=True)]: every text node is stripped, the ones that
    become empty are dropped, the rest are concatenated. *)
Definition get_text_strip (n : node) : string :=
  fold_right String.append ""
    (List.filter (fun s => truthy (Some s)) (List.map strip (strings_of n))).

(** ** Listing extractor: [extract_items_from_page_text] *)

(** One extracted ad card (the dictionary appended to [results]). *)
Record item := {
  it_name : option string;
  it_price_raw : option string;
  it_address : option string;
  it_image_link : option string
}.

(** The body of the [for item in items] loop. *)
Definition extract_item (card : node) : item :=
  let name_tag := find card "p" "ad__card-description" in
  let name := option_map get_text_strip name_tag in
  let price_tag := find card "p" "ad__card-price" in
  let price_raw := option_map get_text_strip price_tag in
  let address_tag := find card "p" "ad__card-location" in
  let address := option_map get_text_strip address_tag in
  let img_tag := find card "img" "ad__card-img" in
  let image_link :=
    match img_tag with
    | None => None
    | Some img => py_or (tag_get img "src") (tag_get img "data-src")
    end in
  {| it_name := name; it_price_raw := price_raw;
     it_address := address; it_image_link := image_link |}.

(** The extractor on an already parsed page. *)
Definition extract_items_from_soup (top : list node) : list item :=
  let items := find_all top "div" "col s6 m4 l3" in
  fold_left (fun results card => (results ++ [extract_item card])%list) items [].

(** ** The outside world *)

(** What [requests.get] is called with. *)
Record request := {
  req_url : string;
  req_headers : list (string * string);
  req_timeout : Z
}.

(** What the network answers: the transport fails ([requests.get] raises),
    or a response with a status code and a body comes back. *)
Inductive response : Type :=
  | TransportError
  | HttpResponse (status_code : Z) (text : string).

(** Observable actions, in the order they happen.  [EvProgress] records the
    two arguments of the progress callback and, as instrumentation, the
    lengths of [all_raw] and [all_cleaned] at the time of the call. *)
Inductive event : Type :=
  | EvGet (r : request)
  | EvExtract (html : string)
  | EvNow
  | EvProgress (page max_pages : Z) (n_raw n_cleaned : nat)
  | EvSleep (seconds : Q).

Record world := {
  cache : gmap string (option string);
  requests_made : nat;
  clock_reads : nat;
  trace : list event
}.

(** A cell of the [price] column of the cleaned frame: an integer (int64,
    or a Python int kept as an object), a float64 holding a whole number,
    NaN, or [None]. *)
Inductive price_cell : Type :=
  | PriceInt (n : Z)
  | PriceFloat (x : Z)
  | PriceNaN
  | PriceNone.

(** The oracles: the answer to the [n]-th request of the process, the ISO
    text of the [n]-th clock reading, the HTML parser, the exception
    [time.sleep] raises for a delay the platform cannot convert or wait for
    (OverflowError, OSError; [None] for a delay it accepts), and what pandas
    makes of a price column that holds an integer outside the int64 range
    (an exception, or the conversion applied to every cell). *)
Record environment := {
  http_get : nat -> request -> response;
  timestamp_now : nat -> string;
  html_parser : string -> list node;
  sleep_error : Q -> option exn;
  pandas_big_ints : list (option Z) -> exn + (option Z -> price_cell)
}.

Inductive outcome (A : Type) : Type :=
  | Returned (a : A) (w : world)
  | Raised (e : exn) (w : world).
Arguments Returned {A} a w.
Arguments Raised {A} e w.

Definition M (A : Type) : Type := world -> outcome A.

Definition ret {A} (a : A) : M A := fun w => Returned a w.

Definition bind {A B} (m : M A) (k : A -> M B) : M B :=
  fun w =>
    match m w with
    | Returned a w' => k a w'
    | Raised e w' => Raised e w'
    end.

Definition raise {A} (e : exn) : M A := fun w => Raised e w.

(** [try: m  except Exception as e: handler e]. *)
Definition try_except {A} (m : M A) (handler : exn -> M A) : M A :=
  fun w =>
    match m w with
    | Returned a w' => Returned a w'
    | Raised e w' => handler e w'
    end.

(** The world after one more observable action. *)
Definition record_event (e : event) (w : world) : world :=
  {| cache := cache w; requests_made := requests_made w;
     clock_reads := clock_reads w; trace := (trace w ++ [e])%list |}.

Definition log (e : event) : M unit :=
  fun w => Returned tt (record_event e w).

Notation "'let*' x ':=' m 'in' k" := (bind m (fun x => k))
  (at level 10, x pattern, m at level 100, k at level 200).

(** ** Page fetcher: [fetch_page] *)

(** [requests.get(url, headers=headers, timeout=timeout)]. *)
Definition requests_get (E : environment) (url : string)
    (headers : list (string * string)) (timeout : Z) : M (Z * string) :=
  fun w =>
    let req := {| req_url := url; req_headers := headers; req_timeout := timeout |} in
    let w' := record_event (EvGet req)
                {| cache := cache w; requests_made := S (requests_made w);
                   clock_reads := clock_reads w; trace := trace w |} in
    match http_get E (requests_made w) req with
    | TransportError => Raised RequestException w'
    | HttpResponse status body => Returned (status, body) w'
    end.

(** [resp.raise_for_status()]: raises for the 4xx and 5xx codes. *)
Definition raise_for_status (resp : Z * string) : M unit :=
  let status := fst resp in
  if (400 <=? status) && (status <? 600) then raise (HTTPError status) else ret tt.

Definition user_agent : string := "Mozilla/5.0 (compatible; CoinafricaScraper/1.0)".

(** The undecorated function. *)
Definition fetch_page_body (E : environment) (url : string) : M (option string) :=
  let headers := [("User-Agent", user_agent)] in
  try_except
    (let* resp := requests_get E url headers 12 in
     let* _ := raise_for_status resp in
     ret (Some (snd resp)))
    (fun e => ret None).

(** [@st.cache_data]: the value returned for an argument is kept, and later
    calls with the same argument return it without running the function. *)
Definition cache_data (f : string -> M (option string)) (url : string) : M (option string) :=
  fun w =>
    match cache w !! url with
    | Some r => Returned r w
    | None =>
        match f url w with
        | Returned r w' =>
            Returned r {| cache := <[url := r]> (cache w');
                          requests_made := requests_made w';
                          clock_reads := clock_reads w';
                          trace := trace w' |}
        | Raised e w' => Raised e w'
        end
    end.

Definition fetch_page (E : environment) : string -> M (option string) :=
  cache_data (fetch_page_body E).

(** ** Category scraper: [scrape_category] *)

Record raw_row := {
  raw_category : string;
  raw_name : option string;
  raw_price_raw : option string;
  raw_address : option string;
  raw_image_link : option string;
  raw_scraped_at : string
}.

Record cleaned_row := {
  cl_category : string;
  cl_name : option string;
  cl_price : option Z;
  cl_address : option string;
  cl_image_link : option string;
  cl_scraped_at : string
}.

Definition extract_items_from_page_text (E : environment) (html_text : string) : list item :=
  extract_items_from_soup (html_parser E html_text).

(** The call of the extractor, recorded in the trace. *)
Definition call_extract (E : environment) (html : string) : M (list item) :=
  let* _ := log (EvExtract html) in
  ret (extract_items_from_page_text E html).

(** [pd.Timestamp.now().isoformat()]. *)
Definition now_isoformat (E : environment) : M string :=
  fun w =>
    Returned (timestamp_now E (clock_reads w))
      (record_event EvNow
         {| cache := cache w; requests_made := requests_made w;
            clock_reads := S (clock_reads w); trace := trace w |}).

(** [time.sleep(seconds)]: the delay is converted first, which fails for a
    delay out of the platform's range; a negative delay then raises
    ValueError. *)
Definition time_sleep (E : environment) (seconds : Q) : M unit :=
  match sleep_error E seconds with
  | Some e => raise e
  | None => if Qle_bool 0 seconds then log (EvSleep seconds) else raise ValueError
  end.

(** [f"{page}"]. *)
Definition str_of_int (n : Z) : string := NilZero.string_of_int (Z.to_int n).

(** [f"{url_base}?page={page}"]. *)
Definition page_url (url_base : string) (page : Z) : string :=
  url_base ++ "?page=" ++ str_of_int page.

Definition make_raw_row (category_key timestamp : string) (it : item) : raw_row :=
  {| raw_category := category_key;
     raw_name := it_name it;
     raw_price_raw := it_price_raw it;
     raw_address := it_address it;
     raw_image_link := it_image_link it;
     raw_scraped_at := timestamp |}.

Definition make_cleaned_row (category_key timestamp : string) (it : item)
    (price_clean : option Z) : cleaned_row :=
  {| cl_category := category_key;
     cl_name := it_name it;
     cl_price := price_clean;
     cl_address := it_address it;
     cl_image_link := it_image_link it;
     cl_scraped_at := timestamp |}.

(** The inner loop [for it in items]: the price is cleaned, which may raise,
    then the two rows are appended. *)
Fixpoint append_rows (category_key timestamp : string) (items : list item)
    (acc : list raw_row * list cleaned_row)
    : exn + (list raw_row * list cleaned_row) :=
  match items with
  | [] => inr acc
  | it :: rest =>
      let raw_row := make_raw_row category_key timestamp it in
      match clean_price_to_int (it_price_raw it) with
      | inl e => inl e
      | inr price_clean =>
          let cleaned_row := make_cleaned_row category_key timestamp it price_clean in
          append_rows category_key timestamp rest
            ((fst acc ++ [raw_row])%list, (snd acc ++ [cleaned_row])%list)
      end
  end.

(** An exception of a pure computation, raised in the current world. *)
Definition lift {A : Type} (r : exn + A) : M A :=
  match r with
  | inl e => raise e
  | inr a => ret a
  end.

(** The outer loop over [range(1, max_pages+1)], with [n] pages still to
    visit and [page] the current one.  [progress_callback] tells whether a
    callback was given. *)
Fixpoint scrape_pages (E : environment) (url_base category_key : string)
    (max_pages : Z) (sleep : Q) (progress_callback : bool)
    (n : nat) (page : Z) (acc : list raw_row * list cleaned_row)
    : M (list raw_row * list cleaned_row) :=
  match n with
  | O => ret acc
  | S n' =>
      let* html := fetch_page E (page_url url_base page) in
      if negb (truthy html) then ret acc
      else
        let* items := call_extract E (default "" html) in
        match items with
        | [] => ret acc
        | _ :: _ =>
            let* timestamp := now_isoformat E in
            let* acc' := lift (append_rows category_key timestamp items acc) in
            let* _ :=
              (if progress_callback
               then log (EvProgress page max_pages (length (fst acc')) (length (snd acc')))
               else ret tt) in
            let* _ := time_sleep E sleep in
            scrape_pages E url_base category_key max_pages sleep progress_callback
              n' (page + 1) acc'
        end
  end.

(** ** The returned frames: [pd.DataFrame(all_raw)], [pd.DataFrame(all_cleaned)] *)

(** A row of the cleaned frame. *)
Record cleaned_frame_row := {
  cf_category : string;
  cf_name : option string;
  cf_price : price_cell;
  cf_address : option string;
  cf_image_link : option string;
  cf_scraped_at : string
}.

Definition fits_int64 (n : Z) : bool := (- 2 ^ 63 <=? n) && (n <? 2 ^ 63).

(** [float(n)]: the float64 nearest to the integer [n] (ties to the even
    mantissa), for [n] in the int64 range; the result is a whole number. *)
Definition float64_of_int (n : Z) : Z :=
  let a := Z.abs n in
  let e := Z.log2 a - 52 in
  if e <=? 0 then n
  else
    let q := a / 2 ^ e in
    let r := a mod 2 ^ e in
    let half := 2 ^ (e - 1) in
    let q' := if r <? half then q
              else if half <? r then q + 1
              else if Z.even q then q else q + 1 in
    Z.sgn n * (q' * 2 ^ e).

Definition is_None {A : Type} (o : option A) : bool :=
  match o with None => true | Some _ => false end.

Definition fits_int64_or_None (o : option Z) : bool :=
  match o with None => true | Some n => fits_int64 n end.

(** How pandas infers the [price] column from the values of the dictionaries
    (Python ints and [None]): a column of [None] only stays an object column;
    integers of the int64 range give an int64 column when no value is
    missing and a float64 column, with NaN for [None], when one is; a column
    with an integer outside the int64 range is left to the oracle. *)
Definition price_converter (E : environment) (prices : list (option Z))
    : exn + (option Z -> price_cell) :=
  if forallb is_None prices then inr (fun _ => PriceNone)
  else if forallb fits_int64_or_None prices then
    if existsb is_None prices
    then inr (fun o => match o with
                       | None => PriceNaN
                       | Some n => PriceFloat (float64_of_int n)
                       end)
    else inr (fun o => match o with
                       | None => PriceNone
                       | Some n => PriceInt n
                       end)
  else pandas_big_ints E prices.

Definition make_frame_row (convert : option Z -> price_cell) (c : cleaned_row)
    : cleaned_frame_row :=
  {| cf_category := cl_category c;
     cf_name := cl_name c;
     cf_price := convert (cl_price c);
     cf_address := cl_address c;
     cf_image_link := cl_image_link c;
     cf_scraped_at := cl_scraped_at c |}.

(** [pd.DataFrame(all_cleaned)], as the list of its rows.  The other columns
    hold strings and [None], which pandas keeps as they are. *)
Definition DataFrame_cleaned (E : environment) (all_cleaned : list cleaned_row)
    : exn + list cleaned_frame_row :=
  match price_converter E (List.map cl_price all_cleaned) with
  | inl e => inl e
  | inr convert => inr (List.map (make_frame_row convert) all_cleaned)
  end.

(** [pd.DataFrame(all_raw)], as the list of its rows: every column holds
    strings and [None]. *)
Definition DataFrame_raw (all_raw : list raw_row) : list raw_row := all_raw.

Definition scrape_category (E : environment) (url_base category_key : string)
    (max_pages : Z) (sleep : Q) (progress_callback : bool)
    : M (list raw_row * list cleaned_frame_row) :=
  let* acc :=
    scrape_pages E url_base category_key max_pages sleep progress_callback
      (Z.to_nat max_pages) 1 ([], []) in
  let raw_df := DataFrame_raw (fst acc) in
  let* cleaned_df := lift (DataFrame_cleaned E (snd acc)) in
  ret (raw_df, cleaned_df).

(** ** Persistence store: [create_tables_if_not_exists] *)

Inductive sql_value : Type :=
  | SqlNull
  | SqlText (s : string)
  | SqlInteger (z : Z).

(** A table: its column declarations and its rows. *)
Record table := {
  columns : list (string * string);
  rows : list (list sql_value)
}.

Inductive sql_error : Type :=
  | TableAlreadyExists (name : string).

(** [CREATE TABLE [IF NOT EXISTS] name (cols)] on a database seen as a map
    from table names to tables.  Without the clause an existing name is an
    error; with it the statement has no effect. *)
Definition create_table (if_not_exists : bool) (name : string)
    (cols : list (string * string)) (db : gmap string table)
    : sql_error + gmap string table :=
  match db !! name with
  | Some _ => if if_not_exists then inr db else inl (TableAlreadyExists name)
  | None => inr (<[name := {| columns := cols; rows := [] |}]> db)
  end.

Definition raw_ads_columns : list (string * string) :=
  [("category", "TEXT"); ("name", "TEXT"); ("price_raw", "TEXT");
   ("address", "TEXT"); ("image_link", "TEXT"); ("scraped_at", "TEXT")].

Definition cleaned_ads_columns : list (string * string) :=
  [("category", "TEXT"); ("name", "TEXT"); ("price", "INTEGER");
   ("address", "TEXT"); ("image_link", "TEXT"); ("scraped_at", "TEXT")].

Definition evaluations_columns : list (string * string) :=
  [("id", "INTEGER PRIMARY KEY AUTOINCREMENT"); ("name", "TEXT");
   ("email", "TEXT"); ("rating", "INTEGER"); ("pros", "TEXT");
   ("cons", "TEXT"); ("comment", "TEXT"); ("submitted_at", "TEXT")].

(** The three [cur.execute] calls in order; an error of one statement
    propagates and the later ones do not run. *)
Definition create_tables_if_not_exists (db : gmap string table)
    : sql_error + gmap string table :=
  match create_table true "raw_ads" raw_ads_columns db with
  | inl e => inl e
  | inr db1 =>
      match create_table true "cleaned_ads" cleaned_ads_columns db1 with
      | inl e => inl e
      | inr db2 => create_table true "evaluations" evaluations_columns db2
      end
  end.

(** ** Vocabulary of the statements *)

(** Whether [int] accepts the digits of the price text of an item. *)
Definition price_ok (it : item) : bool :=
  match clean_price_to_int (it_price_raw it) with
  | inr _ => true
  | inl _ => false
  end.

(** The cleaned price of an item whose price text [int] accepts. *)
Definition price_of (it : item) : option Z :=
  match clean_price_to_int (it_price_raw it) with
  | inr price_clean => price_clean
  | inl _ => None
  end.

(** The cleaned row of such an item. *)
Definition cleaned_row_of (category_key timestamp : string) (it : item) : cleaned_row :=
  make_cleaned_row category_key timestamp it (price_of it).

(** The exception [time.sleep] raises for a delay, if any. *)
Definition sleep_exn (E : environment) (seconds : Q) : option exn :=
  match sleep_error E seconds with
  | Some e => Some e
  | None => if Qle_bool 0 seconds then None else Some ValueError
  end.

(** The rows a run contributes, page by page: [batches] lists the items of
    the pages that were processed, in order, and the page at position [k]
    is stamped with the clock reading number [clock + k]. *)
Fixpoint raw_of_batches (E : environment) (category_key : string) (clock : nat)
    (batches : list (list item)) : list raw_row :=
  match batches with
  | [] => []
  | items :: rest =>
      (List.map (make_raw_row category_key (timestamp_now E clock)) items
       ++ raw_of_batches E category_key (S clock) rest)%list
  end.

Fixpoint cleaned_of_batches (E : environment) (category_key : string) (clock : nat)
    (batches : list (list item)) : list cleaned_row :=
  match batches with
  | [] => []
  | items :: rest =>
      (List.map (cleaned_row_of category_key (timestamp_now E clock)) items
       ++ cleaned_of_batches E category_key (S clock) rest)%list
  end.

(** The calls of the progress callback found in a trace. *)
Definition progress_calls (tr : list event) : list (Z * Z * nat * nat) :=
  omap (fun e => match e with
                 | EvProgress p m nr nc => Some (p, m, nr, nc)
                 | _ => None
                 end) tr.

(** The page contents the extractor was called on. *)
Definition extract_calls (tr : list event) : list string :=
  omap (fun e => match e with EvExtract h => Some h | _ => None end) tr.

(** The requests sent. *)
Definition get_calls (tr : list event) : list request :=
  omap (fun e => match e with EvGet r => Some r | _ => None end) tr.

(** The delays slept. *)
Definition sleep_calls (tr : list event) : list Q :=
  omap (fun e => match e with EvSleep d => Some d | _ => None end) tr.

(** The callback calls expected for [batches] when the first of them is page
    [page] and [nr], [nc] rows were accumulated before it: one call per
    page, after the rows of that page were added. *)
Fixpoint progress_of_batches (page max_pages : Z) (nr nc : nat)
    (batches : list (list item)) : list (Z * Z * nat * nat) :=
  match batches with
  | [] => []
  | items :: rest =>
      let nr' := (nr + length items)%nat in
      let nc' := (nc + length items)%nat in
      (page, max_pages, nr', nc')
      :: progress_of_batches (page + 1) max_pages nr' nc' rest
  end.

(** The one request [fetch_page] sends for a URL. *)
Definition fetch_request (url : string) : request :=
  {| req_url := url; req_headers := [("User-Agent", user_agent)]; req_timeout := 12 |}.

(** The world an outcome leaves behind. *)
Definition outcome_world {A : Type} (o : outcome A) : world :=
  match o with
  | Returned _ w => w
  | Raised _ w => w
  end.

(** The page numbers [page], [page + 1], ..., [n] of them. *)
Fixpoint pages_from (page : Z) (n : nat) : list Z :=
  match n with
  | O => []
  | S n' => page :: pages_from (page + 1) n'
  end.

(** The world after the callback step of a page. *)
Definition after_callback (progress_callback : bool) (max_pages page : Z)
    (nr nc : nat) (w : world) : world :=
  if progress_callback then record_event (EvProgress page max_pages nr nc) w else w.

(** [items] is what page number [page] of the category gave: the memo table
    [memo] holds a non-empty content for the URL of that page, and [items]
    are the items extracted from it. *)
Definition page_gave (E : environment) (url_base : string)
    (memo : gmap string (option string)) (page : Z) (items : list item) : Prop :=
  exists html : string,
    memo !! page_url url_base page = Some (Some html)
    /\ html <> ""
    /\ extract_items_from_page_text E html = items.

(** [batches] are the items of the consecutive pages [page], [page + 1],
    ...: each of them gave at least one item, and [int] accepted every price
    text of it. *)
Fixpoint batches_of_pages (E : environment) (url_base : string)
    (memo : gmap string (option string)) (page : Z) (batches : list (list item)) : Prop :=
  match batches with
  | [] => True
  | items :: rest =>
      page_gave E url_base memo page items
      /\ items <> []
      /\ forallb price_ok items = true
      /\ batches_of_pages E url_base memo (page + 1) rest
  end.

(** Why a run of the loop raised after the pages of [batches], with the
    number of clock readings and of sleeps it made: [int] refused a price
    text of the next page (after the clock was read for it, and before any
    row of it was appended and the callback called), or [time.sleep] raised,
    which it does after the first page if at all. *)
Definition raise_cause (E : environment) (url_base : string) (sleep : Q)
    (memo : gmap string (option string)) (page : Z) (batches : list (list item))
    (e : exn) (reads sleeps : nat) : Prop :=
  (e = ValueError
   /\ reads = S (length batches)
   /\ sleeps = length batches
   /\ (batches <> [] -> sleep_exn E sleep = None)
   /\ exists items : list item,
        page_gave E url_base memo (page + Z.of_nat (length batches)) items
        /\ forallb price_ok items = false)
  \/ (sleep_exn E sleep = Some e
      /\ (exists items : list item, batches = [items])
      /\ reads = 1%nat
      /\ sleeps = 0%nat).

(** What a run [o] of the loop, started with [n] pages left at [page], rows
    [acc] and world [w], did: it processed the pages of [batches] and added
    [evs] to the trace. *)
Definition loop_facts (E : environment) (url_base category_key : string)
    (max_pages : Z) (sleep : Q) (progress_callback : bool)
    (n : nat) (page : Z) (acc : list raw_row * list cleaned_row) (w : world)
    (o : outcome (list raw_row * list cleaned_row))
    (batches : list (list item)) (evs : list event) : Prop :=
  trace (outcome_world o) = (trace w ++ evs)%list
  /\ cache w ⊆ cache (outcome_world o)
  /\ (length batches <= n)%nat
  /\ batches_of_pages E url_base (cache (outcome_world o)) page batches
  /\ progress_calls evs
     = (if progress_callback
        then progress_of_batches page max_pages
               (length (fst acc)) (length (snd acc)) batches
        else [])
  /\ Forall (fun html => html <> "") (extract_calls evs)
  /\ (length batches <= length (extract_calls evs) <= n)%nat
  /\ get_calls evs
     `sublist_of` List.map (fun p => fetch_request (page_url url_base p)) (pages_from page n)
  /\ (n = O -> evs = [])
  /\ match o with
     | Returned res w' =>
         res = ((fst acc ++ raw_of_batches E category_key (clock_reads w) batches)%list,
                (snd acc ++ cleaned_of_batches E category_key (clock_reads w) batches)%list)
         /\ clock_reads w' = (clock_reads w + length batches)%nat
         /\ sleep_calls evs = replicate (length batches) sleep
         /\ (batches <> [] -> sleep_exn E sleep = None)
         /\ (length batches = n -> n <> O -> last evs = Some (EvSleep sleep))
     | Raised e w' =>
         exists reads sleeps : nat,
           raise_cause E url_base sleep (cache w') page batches e reads sleeps
           /\ clock_reads w' = (clock_reads w + reads)%nat
           /\ sleep_calls evs = replicate sleeps sleep
     end.







(** The rows of the page at position [k] of a run that started with the
    clock at [clock]. *)
Definition page_raw_rows (E : environment) (category_key : string) (clock : nat)
    (k : nat) (items : list item) : list raw_row :=
  List.map (make_raw_row category_key (timestamp_now E (clock + k))) items.

Definition page_cleaned_rows (E : environment) (category_key : string) (clock : nat)
    (k : nat) (items : list item) : list cleaned_row :=
  List.map (cleaned_row_of category_key (timestamp_now E (clock + k))) items.

(** The rows the cleaned frame holds for that page, with the conversion
    [convert] of the price column. *)
Definition page_frame_rows (convert : option Z -> price_cell) (E : environment)
    (category_key : string) (clock : nat) (k : nat) (items : list item)
    : list cleaned_frame_row :=
  List.map (make_frame_row convert) (page_cleaned_rows E category_key clock k items).

(** The number a cell of the price column holds, absent for NaN and [None]. *)
Definition cell_value (c : price_cell) : option Z :=
  match c with
  | PriceInt n => Some n
  | PriceFloat x => Some x
  | PriceNaN => None
  | PriceNone => None
  end.

(** The normalised price of a raw row whose price text [int] accepts. *)
Definition normalized_price (r : raw_row) : option Z :=
  match clean_price_to_int (raw_price_raw r) with
  | inr price_clean => price_clean
  | inl _ => None
  end.

(** What [scrape_category] makes of the outcome of its loop: the frames are
    built from the accumulated rows. *)
Definition frames_of_loop (E : environment)
    (o : outcome (list raw_row * list cleaned_row))
    : outcome (list raw_row * list cleaned_frame_row) :=
  match o with
  | Raised e w' => Raised e w'
  | Returned acc w' =>
      match DataFrame_cleaned E (snd acc) with
      | inl e => Raised e w'
      | inr cleaned_df => Returned (DataFrame_raw (fst acc), cleaned_df) w'
      end
  end.

(** The state machine of the specification (section 4.4) as a relation
    between the state of the loop before a page ([n] pages left, current
    [page], accumulated rows, world) and the result of the run. *)
Inductive scrape_run (E : environment) (url_base category_key : string)
    (max_pages : Z) (sleep : Q) (progress_callback : bool)
    : nat -> Z -> list raw_row * list cleaned_row -> world ->
      list raw_row * list cleaned_row -> world -> Prop :=
  | run_exhausted page acc w :
      scrape_run E url_base category_key max_pages sleep progress_callback
        O page acc w acc w
  | run_fetch_failure n page acc w r w1 :
      fetch_page E (page_url url_base page) w = Returned r w1 ->
      truthy r = false ->
      scrape_run E url_base category_key max_pages sleep progress_callback
        (S n) page acc w acc w1
  | run_empty_extraction n page acc w html w1 :
      fetch_page E (page_url url_base page) w = Returned (Some html) w1 ->
      truthy (Some html) = true ->
      extract_items_from_page_text E html = [] ->
      scrape_run E url_base category_key max_pages sleep progress_callback
        (S n) page acc w acc (record_event (EvExtract html) w1)
  | run_page n page acc w html w1 items timestamp w2 acc' w3 w4 res w' :
      fetch_page E (page_url url_base page) w = Returned (Some html) w1 ->
      truthy (Some html) = true ->
      extract_items_from_page_text E html = items ->
      items <> [] ->
      now_isoformat E (record_event (EvExtract html) w1) = Returned timestamp w2 ->
      append_rows category_key timestamp items acc = inr acc' ->
      acc' = ((fst acc ++ List.map (make_raw_row category_key timestamp) items)%list,
              (snd acc ++ List.map (cleaned_row_of category_key timestamp) items)%list) ->
      w3 = (if progress_callback
            then record_event
                   (EvProgress page max_pages (length (fst acc')) (length (snd acc'))) w2
            else w2) ->
      time_sleep E sleep w3 = Returned tt w4 ->
      scrape_run E url_base category_key max_pages sleep progress_callback
        n (page + 1) acc' w4 res w' ->
      scrape_run E url_base category_key max_pages sleep progress_callback
        (S n) page acc w res w'.

(** The store after provisioning: every table that is missing is added
    empty, one after the other. *)
Definition provision_table (name : string) (cols : list (string * string))
    (db : gmap string table) : gmap string table :=
  match db !! name with
  | Some _ => db
  | None => <[name := {| columns := cols; rows := [] |}]> db
  end.

(** ** Sample data *)

(** Two sample cards: an image tag without any source
    attribute, and an image tag whose primary attribute is present but
    empty. *)
Definition card_img_without_source : node :=
  Tag "div" (Some ["col"; "s6"; "m4"; "l3"]) ∅
    [Tag "img" (Some ["ad__card-img"]) ∅ []].

Definition card_img_empty_src : node :=
  Tag "div" (Some ["col"; "s6"; "m4"; "l3"]) ∅
    [Tag "img" (Some ["ad__card-img"]) {["src" := ""; "data-src" := "lazy.png"]} []].


Definition sample_p (class text : string) : node :=
  Tag "p" (Some [class]) ∅ [NavigableString text].

Definition sample_card (name price : string) : node :=
  Tag "div" (Some ["col"; "s6"; "m4"; "l3"]) ∅
    [sample_p "ad__card-description" name; sample_p "ad__card-price" price;
     Tag "img" (Some ["ad__card-img"]) {["src" := "a.png"]} []].

(** A parser that knows two pages: ["one"] holds two cards, ["two"] one. *)
Definition sample_parser (html : string) : list node :=
  if String.eqb html "one"
  then [Tag "html" None ∅ [sample_card " Dog " "12 500 FCFA"; sample_card "Cat" "abc"]]
  else if String.eqb html "two" then [sample_card "Hen" "7"]
  else [].

(** A site with two pages of ads, an empty third page, and nothing else. *)
Definition sample_network (n : nat) (req : request) : response :=
  if String.eqb (req_url req) "u?page=1" then HttpResponse 200 "one"
  else if String.eqb (req_url req) "u?page=2" then HttpResponse 200 "two"
  else if String.eqb (req_url req) "u?page=3" then HttpResponse 200 ""
  else HttpResponse 404 "not found".



(** A platform whose [time.sleep] accepts every delay that is not negative,
    and a pandas that keeps a column with a big integer as objects. *)
Definition no_sleep_error (seconds : Q) : option exn := None.

Definition object_column (prices : list (option Z)) : exn + (option Z -> price_cell) :=
  inr (fun o => match o with None => PriceNone | Some n => PriceInt n end).

Definition sample_clock (n : nat) : string := "t" ++ str_of_int (Z.of_nat n).

Definition sample_env : environment :=
  {| http_get := sample_network; timestamp_now := sample_clock;
     html_parser := sample_parser;
     sleep_error := no_sleep_error; pandas_big_ints := object_column |}.


(** A site whose first page is served with an empty body. *)
Definition blank_env : environment :=
  {| http_get := fun _ _ => HttpResponse 200 ""; timestamp_now := sample_clock;
     html_parser := sample_parser;
     sleep_error := no_sleep_error; pandas_big_ints := object_column |}.

(** A site that answers every request with the given status and a body. *)
Definition status_env (status : Z) : environment :=
  {| http_get := fun _ _ => HttpResponse status "body"; timestamp_now := sample_clock;
     html_parser := sample_parser;
     sleep_error := no_sleep_error; pandas_big_ints := object_column |}.


(** A site whose pages hold two cards: one with a price above 2^53, one
    with a price text without a digit. *)
Definition rounding_env : environment :=
  {| http_get := sample_network; timestamp_now := sample_clock;
     html_parser := fun html =>
       if String.eqb html "one"
       then [sample_card "Dog" "9007199254740993 FCFA"; sample_card "Cat" "sur demande"]
       else [];
     sleep_error := no_sleep_error; pandas_big_ints := object_column |}.


(** A platform whose [time.sleep] cannot convert a delay of 10^10 seconds or
    more. *)
Definition overflow_env : environment :=
  {| http_get := sample_network; timestamp_now := sample_clock;
     html_parser := sample_parser;
     sleep_error := fun seconds =>
       if Qle_bool 10000000000 seconds then Some OverflowError else None;
     pandas_big_ints := object_column |}.

(** The world of a fresh process. *)
Definition empty_world : world :=
  {| cache := ∅; requests_made := 0; clock_reads := 0; trace := [] |}.

(** ** Vocabulary of the further properties *)

(** Calls of [fetch_page] one after the other. *)
Fixpoint fetch_pages (E : environment) (urls : list string) : M (list (option string)) :=
  match urls with
  | [] => ret []
  | url :: rest =>
      let* r := fetch_page E url in
      let* rs := fetch_pages E rest in
      ret (r :: rs)
  end.

(** ** More sample data *)

(** A site that fails on the first request of the process and answers every
    later one. *)
Definition flaky_env : environment :=
  {| http_get := fun n _ => match n with
                            | O => HttpResponse 503 "busy"
                            | S _ => HttpResponse 200 "one"
                            end;
     timestamp_now := sample_clock; html_parser := sample_parser;
     sleep_error := no_sleep_error; pandas_big_ints := object_column |}.

(** The result and the world of the sample run of five pages at most. *)
Definition sample_run_result : list raw_row * list cleaned_frame_row :=
  Eval vm_compute in
    match scrape_category sample_env "u" "dogs" 5 1 true empty_world with
    | Returned res _ => res
    | Raised _ _ => ([], [])
    end.

Definition sample_run_world : world :=
  Eval vm_compute in
    outcome_world (scrape_category sample_env "u" "dogs" 5 1 true empty_world).

(** ** Dashboard: the filters of the cleaned view

    The rows read from [cleaned_ads] are [cleaned_row]s ([None] is a NULL
    price, which pandas holds as NaN).  The widgets are oracles: what the
    multiselect returns for its options, what the slider returns (or raises)
    for its bounds, and the text typed in the search box.  The regular
    expression search of [str.contains] is an oracle too. *)

Definition MAX_ALLOWED : Z := 10000000.

(** [(df["price"] > 0) & (df["price"] <= MAX_ALLOWED)]; a comparison with
    NaN is false. *)
Definition price_in_bounds (c : cleaned_row) : bool :=
  match cl_price c with
  | Some p => (0 <? p) && (p <=? MAX_ALLOWED)
  | None => false
  end.

(** [series.unique()]: the values in the order of their first appearance. *)
Fixpoint unique_from (seen : list string) (l : list string) : list string :=
  match l with
  | [] => []
  | x :: r =>
      if existsb (String.eqb x) seen then unique_from seen r
      else x :: unique_from (x :: seen) r
  end.

Definition unique (l : list string) : list string := unique_from [] l.

(** [series.min()] and [series.max()]; NaN ([None]) for an empty series. *)
Definition series_min (l : list Z) : option Z :=
  match l with
  | [] => None
  | x :: r => Some (fold_left Z.min r x)
  end.

Definition series_max (l : list Z) : option Z :=
  match l with
  | [] => None
  | x :: r => Some (fold_left Z.max r x)
  end.

(** [int(x or 0)]: NaN is truthy, so [x or 0] is NaN and [int] raises
    ValueError; a zero gives 0, any other number itself. *)
Definition int_or_zero (x : option Z) : exn + Z :=
  match x with
  | None => inl ValueError
  | Some v => inr (if v =? 0 then 0 else v)
  end.

(** [min_price, max_price = int(price.min() or 0), int(price.max() or 0)]. *)
Definition price_bounds (df : list cleaned_row) : exn + (Z * Z) :=
  let prices := omap cl_price df in
  match int_or_zero (series_min prices) with
  | inl e => inl e
  | inr min_price =>
      match int_or_zero (series_max prices) with
      | inl e => inl e
      | inr max_price => inr (min_price, max_price)
      end
  end.

(** [df["category"].isin(cat_sel)]. *)
Definition isin (cat_sel : list string) (c : cleaned_row) : bool :=
  existsb (String.eqb (cl_category c)) cat_sel.

(** [df["price"].between(lo, hi, inclusive="both")]. *)
Definition between (lo hi : Z) (c : cleaned_row) : bool :=
  match cl_price c with
  | Some p => (lo <=? p) && (p <=? hi)
  | None => false
  end.

(** [df["address"].str.contains(addr_search, case=False, na=False)] on one
    row, with [matches] the search of the compiled pattern; a missing
    address does not match. *)
Definition address_contains (matches : string -> bool) (c : cleaned_row) : bool :=
  match cl_address c with
  | Some a => matches a
  | None => false
  end.

(** The three filters of the view.  [str.contains] compiles the search text
    as a regular expression first ([re_compile], with the flag that ignores
    case), which raises on a text that is no pattern. *)
Definition apply_filters (re_compile : string -> exn + (string -> bool))
    (cleaned_df : list cleaned_row) (cat_sel : list string)
    (price_range : Z * Z) (addr_search : string) : exn + list cleaned_row :=
  let df_f := List.filter (isin cat_sel) cleaned_df in
  let df_f := List.filter (between (fst price_range) (snd price_range)) df_f in
  if truthy (Some addr_search)
  then match re_compile addr_search with
       | inl e => inl e
       | inr matches => inr (List.filter (address_contains matches) df_f)
       end
  else inr df_f.

Inductive dashboard_outcome : Type :=
  | NoData
  | Crash (e : exn)
  | View (df_f : list cleaned_row).

(** The dashboard branch of the script, from the rows of [cleaned_ads] to
    the filtered frame [df_f] that the metrics, the charts and the export
    read. *)
Definition dashboard (re_compile : string -> exn + (string -> bool))
    (multiselect : list string -> list string)
    (slider : Z -> Z -> exn + (Z * Z))
    (addr_search : string) (stored : list cleaned_row) : dashboard_outcome :=
  match stored with
  | [] => NoData
  | _ :: _ =>
      let cleaned_df := List.filter price_in_bounds stored in
      let cat_sel := multiselect (unique (List.map cl_category cleaned_df)) in
      match price_bounds cleaned_df with
      | inl e => Crash e
      | inr (min_price, max_price) =>
          match slider min_price max_price with
          | inl e => Crash e
          | inr price_range =>
              match apply_filters re_compile cleaned_df cat_sel price_range addr_search with
              | inl e => Crash e
              | inr df_f => View df_f
              end
          end
      end
  end.

(** A slider as Streamlit has it, left where it starts: it refuses a range
    whose bounds are not in order, and returns the full range otherwise. *)
Definition untouched_slider (lo hi : Z) : exn + (Z * Z) :=
  if lo <? hi then inr (lo, hi) else inl StreamlitAPIException.

(** A search that takes every text but an opening parenthesis as a pattern
    that matches everything. *)
Definition sample_re_compile (pat : string) : exn + (string -> bool) :=
  if String.eqb pat "(" then inl RegexError else inr (fun _ => true).

(** Rows as the table [cleaned_ads] holds them. *)
Definition sample_stored : list cleaned_row :=
  [ {| cl_category := "dogs"; cl_name := Some "Dog"; cl_price := Some 12500;
       cl_address := Some "Dakar"; cl_image_link := None; cl_scraped_at := "t0" |};
    {| cl_category := "dogs"; cl_name := Some "Cat"; cl_price := None;
       cl_address := None; cl_image_link := None; cl_scraped_at := "t0" |};
    {| cl_category := "hens"; cl_name := Some "Hen"; cl_price := Some 7;
       cl_address := Some "Thies"; cl_image_link := None; cl_scraped_at := "t1" |} ].

(** A class token as the parser produces them: without a space in it. *)
Fixpoint no_space (t : string) : bool :=
  match t with
  | EmptyString => true
  | String c r => negb (Ascii.eqb c " ") && no_space r
  end.
(* ===================================================================== *)
(** * Part II: properties                                                 *)
(* ===================================================================== *)

(** ** Price normaliser *)


Lemma re_sub_non_digits_all_digits (s : string) :
  all_digits (re_sub_non_digits s) = true.
Proof.
  induction s as [|c r IH]; simpl; [reflexivity|].
  destruct (is_digit c) eqn:Hc; simpl; [rewrite Hc|]; assumption.
Qed.

Lemma re_sub_non_digits_id (s : string) :
  all_digits s = true -> re_sub_non_digits s = s.
Proof.
  induction s as [|c r IH]; simpl; [reflexivity|].
  intros [Hc Hr]%andb_prop. rewrite Hc, (IH Hr). reflexivity.
Qed.

(** The accumulator loop of [int] agrees with the decimal reader of the
    standard library on every decimal numeral. *)
Lemma int_acc_of_uint_acc (d : Decimal.uint) (acc : positive) :
  int_acc (Z.pos acc) (NilEmpty.string_of_uint d) = Z.pos (Pos.of_uint_acc d acc).
Proof.
  revert acc. induction d; intros acc; simpl; [reflexivity|..];
    rewrite <- IHd; f_equal; unfold digit_value; simpl; lia.
Qed.

Lemma int_acc_of_uint (d : Decimal.uint) :
  int_acc 0 (NilEmpty.string_of_uint d) = Z.of_N (N.of_uint d).
Proof.
  unfold N.of_uint.
  induction d; simpl; [reflexivity| exact IHd |..];
    unfold digit_value; simpl; apply int_acc_of_uint_acc.
Qed.



Lemma int_acc_nonneg (s : string) (acc : Z) :
  0 <= acc -> all_digits s = true -> 0 <= int_acc acc s.
Proof.
  revert acc. induction s as [|c r IH]; simpl; intros acc Hacc H; [assumption|].
  apply andb_prop in H as [Hc Hr]. apply IH; [|assumption].
  unfold is_digit in Hc. unfold digit_value. lia.
Qed.

Lemma truthy_Some (s : string) : truthy (Some s) = negb (String.eqb s "").
Proof. destruct s; reflexivity. Qed.

Lemma clean_price_to_int_Some (s : string) :
  clean_price_to_int (Some s)
  = match re_sub_non_digits s with
    | EmptyString => inr None
    | String _ _ =>
        if (int_max_str_digits <? String.length (re_sub_non_digits s))%nat
        then inl ValueError
        else inr (Some (int_acc 0 (re_sub_non_digits s)))
    end.
Proof.
  unfold clean_price_to_int, int_of_digits. destruct s as [|c r]; [reflexivity|].
  cbn [truthy negb]. destruct (re_sub_non_digits (String c r)) eqn:Hd; [reflexivity|].
  cbn [truthy].
  destruct (int_max_str_digits <? String.length (String a s))%nat; reflexivity.
Qed.

(** The only exception of the normaliser is the ValueError of [int]. *)
Lemma clean_price_to_int_exn (o : option string) (e : exn) :
  clean_price_to_int o = inl e -> e = ValueError.
Proof.
  destruct o as [s|]; [|discriminate]. rewrite clean_price_to_int_Some.
  destruct (re_sub_non_digits s); [discriminate|].
  destruct (int_max_str_digits <? _)%nat; [|discriminate]. congruence.
Qed.



(** ** Listing extractor *)

Lemma fold_left_snoc_map {A B : Type} (f : A -> B) (l : list A) (init : list B) :
  fold_left (fun acc x => (acc ++ [f x])%list) l init = (init ++ List.map f l)%list.
Proof.
  revert init. induction l as [|x l IH]; intros init; simpl.
  - symmetry. apply app_nil_r.
  - rewrite IH, <- app_assoc. reflexivity.
Qed.

Lemma extract_items_from_soup_map (top : list node) :
  extract_items_from_soup top
  = List.map extract_item (find_all top "div" "col s6 m4 l3").
Proof. unfold extract_items_from_soup. rewrite fold_left_snoc_map. reflexivity. Qed.

Lemma option_map_None {A B : Type} (f : A -> B) (o : option A) :
  option_map f o = None <-> o = None.
Proof. destruct o; simpl; split; congruence. Qed.

Lemma py_or_spec (a b : option string) :
  py_or a b = match a with
              | Some (String c r) => Some (String c r)
              | _ => b
              end.
Proof. destruct a as [[|c r]|]; reflexivity. Qed.

(** C8, as stated, fails: the image child of the first card is present and
    the image source is absent all the same; the primary attribute of the
    second card is present (and empty) and the lazy-load attribute is taken
    all the same. *)
Lemma extract_image_link_counterexample :
  (find card_img_without_source "img" "ad__card-img" <> None
   /\ List.map it_image_link (extract_items_from_soup [card_img_without_source])
      = [None])
  /\ (option_map (fun img => tag_get img "src")
        (find card_img_empty_src "img" "ad__card-img") = Some (Some "")
      /\ List.map it_image_link (extract_items_from_soup [card_img_empty_src])
         = [Some "lazy.png"]).
Proof. repeat split; try discriminate; vm_compute; reflexivity. Qed.

(** C8 (amended). For every page content the extractor returns one item per
    container matching the signature, in document order, and the empty
    sequence exactly when no container matches.  In each item the description,
    price and location texts are absent exactly when the matching child is
    absent; the image source is absent when the image child is absent, and
    otherwise it is the primary attribute when that is present and not empty,
    else the lazy-load attribute (absent when that one is missing too). *)
Theorem extract_items_from_page_text_spec (E : environment) (html_text : string) :
  let cards := find_all (html_parser E html_text) "div" "col s6 m4 l3" in
  let results := extract_items_from_page_text E html_text in
  results = List.map extract_item cards
  /\ length results = length cards
  /\ (results = [] <-> cards = [])
  /\ Forall (fun card =>
        let it := extract_item card in
        (it_name it = None <-> find card "p" "ad__card-description" = None)
        /\ (it_price_raw it = None <-> find card "p" "ad__card-price" = None)
        /\ (it_address it = None <-> find card "p" "ad__card-location" = None)
        /\ it_image_link it
           = match find card "img" "ad__card-img" with
             | None => None
             | Some img =>
                 match tag_get img "src" with
                 | Some (String c r) => Some (String c r)
                 | _ => tag_get img "data-src"
                 end
             end) cards.
Proof.
  intros cards results.
  assert (Hmap : results = List.map extract_item cards)
    by apply extract_items_from_soup_map.
  split; [exact Hmap|]. split; [rewrite Hmap; apply length_map|].
  split.
  - rewrite Hmap. destruct cards; simpl; split; congruence.
  - apply Forall_forall. intros card _. cbn zeta. unfold extract_item; simpl.
    repeat split; try (apply option_map_None; assumption);
      try (intros ->; reflexivity).
    destruct (find card "img" "ad__card-img"); [apply py_or_spec|reflexivity].
Qed.

(** ** Persistence store *)

Lemma create_table_if_not_exists_ok (name : string) (cols : list (string * string))
    (db : gmap string table) :
  create_table true name cols db
  = inr (match db !! name with
         | Some _ => db
         | None => <[name := {| columns := cols; rows := [] |}]> db
         end).
Proof. unfold create_table. destruct (db !! name); reflexivity. Qed.

Lemma provision_table_lookup_old (name : string) cols (db : gmap string table) k t :
  db !! k = Some t -> provision_table name cols db !! k = Some t.
Proof.
  intros H. unfold provision_table. destruct (db !! name) eqn:E; [exact H|].
  rewrite lookup_insert_ne; [exact H|]. intros ->. congruence.
Qed.

Lemma provision_table_present (name : string) cols (db : gmap string table) :
  is_Some (provision_table name cols db !! name).
Proof.
  unfold provision_table. destruct (db !! name) eqn:E; [rewrite E; eauto|].
  rewrite lookup_insert_eq. eauto.
Qed.

Lemma provision_table_id (name : string) cols (db : gmap string table) :
  is_Some (db !! name) -> provision_table name cols db = db.
Proof. intros [t Ht]. unfold provision_table. rewrite Ht. reflexivity. Qed.

Lemma provision_table_dom (name : string) cols (db : gmap string table) :
  dom (provision_table name cols db) = {[name]} ∪ dom db.
Proof.
  unfold provision_table. destruct (db !! name) eqn:E.
  - assert (name ∈ dom db) by (apply elem_of_dom; eauto). set_solver.
  - apply dom_insert_L.
Qed.

Lemma create_tables_if_not_exists_eq (db : gmap string table) :
  create_tables_if_not_exists db
  = inr (provision_table "evaluations" evaluations_columns
           (provision_table "cleaned_ads" cleaned_ads_columns
              (provision_table "raw_ads" raw_ads_columns db))).
Proof.
  unfold create_tables_if_not_exists.
  rewrite !create_table_if_not_exists_ok. reflexivity.
Qed.

(** C6. Provisioning never fails; afterwards the three collections exist,
    each exactly once (the store is a map from names to tables, and its names
    are the old ones plus the three), the tables that existed before are
    untouched, a second call in succession succeeds and changes nothing, and
    a store that already had the three collections is left as it was. *)
Theorem create_tables_if_not_exists_idempotent (db : gmap string table) :
  exists db' : gmap string table,
    create_tables_if_not_exists db = inr db'
    /\ create_tables_if_not_exists db' = inr db'
    /\ dom db' = {["raw_ads"; "cleaned_ads"; "evaluations"]} ∪ dom db
    /\ (forall name t, db !! name = Some t -> db' !! name = Some t)
    /\ (forall name, db !! name = None -> name ∈ dom db' ->
          db' !! name = Some {| columns :=
                                  (if String.eqb name "raw_ads" then raw_ads_columns
                                   else if String.eqb name "cleaned_ads"
                                        then cleaned_ads_columns
                                        else evaluations_columns);
                                rows := [] |})
    /\ ({["raw_ads"; "cleaned_ads"; "evaluations"]} ⊆ dom db -> db' = db).
Proof.
  rewrite create_tables_if_not_exists_eq. eexists. split; [reflexivity|].
  set (db1 := provision_table "raw_ads" raw_ads_columns db).
  set (db2 := provision_table "cleaned_ads" cleaned_ads_columns db1).
  set (db3 := provision_table "evaluations" evaluations_columns db2).
  split; [|split; [|split; [|split]]].
  - rewrite create_tables_if_not_exists_eq. f_equal.
    assert (H1 : is_Some (db3 !! "raw_ads")).
    { destruct (provision_table_present "raw_ads" raw_ads_columns db) as [t Ht].
      exists t. do 2 apply provision_table_lookup_old. exact Ht. }
    assert (H2 : is_Some (db3 !! "cleaned_ads")).
    { destruct (provision_table_present "cleaned_ads" cleaned_ads_columns db1) as [t Ht].
      exists t. apply provision_table_lookup_old. exact Ht. }
    assert (H3 : is_Some (db3 !! "evaluations"))
      by apply provision_table_present.
    rewrite (provision_table_id "raw_ads" _ db3 H1).
    rewrite (provision_table_id "cleaned_ads" _ db3 H2).
    apply provision_table_id, H3.
  - unfold db3, db2, db1. rewrite !provision_table_dom. set_solver.
  - intros name t H. do 3 apply provision_table_lookup_old. exact H.
  - intros name Hnone Hin.
    assert (Hd : name ∈ ({["raw_ads"; "cleaned_ads"; "evaluations"]} : gset string)).
    { unfold db3, db2, db1 in Hin. rewrite !provision_table_dom in Hin.
      apply not_elem_of_dom in Hnone. set_solver. }
    assert (Hcases : name = "raw_ads" \/ name = "cleaned_ads" \/ name = "evaluations")
      by set_solver.
    destruct Hcases as [-> | [-> | ->]]; simpl.
    + do 2 apply provision_table_lookup_old.
      unfold db1, provision_table. rewrite Hnone. apply lookup_insert_eq.
    + apply provision_table_lookup_old.
      assert (Hn1 : db1 !! "cleaned_ads" = None).
      { unfold db1, provision_table. destruct (db !! "raw_ads"); [exact Hnone|].
        rewrite lookup_insert_ne; [exact Hnone|discriminate]. }
      unfold db2, provision_table. rewrite Hn1. apply lookup_insert_eq.
    + assert (Hn1 : db1 !! "evaluations" = None).
      { unfold db1, provision_table. destruct (db !! "raw_ads"); [exact Hnone|].
        rewrite lookup_insert_ne; [exact Hnone|discriminate]. }
      assert (Hn2 : db2 !! "evaluations" = None).
      { unfold db2, provision_table. destruct (db1 !! "cleaned_ads"); [exact Hn1|].
        rewrite lookup_insert_ne; [exact Hn1|discriminate]. }
      unfold db3, provision_table. rewrite Hn2. apply lookup_insert_eq.
  - intros Hsub.
    assert (H1 : is_Some (db !! "raw_ads")) by (apply elem_of_dom; set_solver).
    assert (H2 : is_Some (db !! "cleaned_ads")) by (apply elem_of_dom; set_solver).
    assert (H3 : is_Some (db !! "evaluations")) by (apply elem_of_dom; set_solver).
    unfold db3, db2, db1.
    rewrite (provision_table_id "raw_ads" _ db H1).
    rewrite (provision_table_id "cleaned_ads" _ db H2).
    apply provision_table_id, H3.
Qed.

(** ** Page fetcher *)

Lemma fetch_page_hit (E : environment) (url : string) (w : world) (r : option string) :
  cache w !! url = Some r -> fetch_page E url w = Returned r w.
Proof. intros H. unfold fetch_page, cache_data. rewrite H. reflexivity. Qed.

Lemma fetch_page_miss (E : environment) (url : string) (w : world) :
  cache w !! url = None ->
  fetch_page E url w
  = let r := match http_get E (requests_made w) (fetch_request url) with
             | TransportError => None
             | HttpResponse status body =>
                 if (400 <=? status) && (status <? 600) then None else Some body
             end in
    Returned r {| cache := <[url := r]> (cache w);
                  requests_made := S (requests_made w);
                  clock_reads := clock_reads w;
                  trace := (trace w ++ [EvGet (fetch_request url)])%list |}.
Proof.
  intros H. unfold fetch_page, cache_data. rewrite H.
  unfold fetch_page_body, try_except, bind, requests_get, raise_for_status.
  fold (fetch_request url).
  destruct (http_get E (requests_made w) (fetch_request url)) as [|status body];
    [reflexivity|].
  cbn [fst snd]. destruct ((400 <=? status) && (status <? 600)); reflexivity.
Qed.

(** The memo table also keeps a failure: the second of two calls in
    succession sends no request (one request in total); here the first one
    failed with status 503. *)
Example fetch_page_memoised_failure :
  let w1 := {| cache := {["u" := None]}; requests_made := 1; clock_reads := 0;
               trace := [EvGet (fetch_request "u")] |} in
  fetch_page (status_env 503) "u" empty_world = Returned None w1
  /\ fetch_page (status_env 503) "u" w1 = Returned None w1.
Proof. split; reflexivity. Qed.

(** C7, as stated, fails on a status that is no success and lies outside
    400..599: the answers with status 304, 399 and 600 are not turned into
    the absent result, the caller gets their body. *)
Lemma fetch_page_status_counterexample :
  let w1 := {| cache := {["u" := Some "body"]}; requests_made := 1; clock_reads := 0;
               trace := [EvGet (fetch_request "u")] |} in
  fetch_page (status_env 304) "u" empty_world = Returned (Some "body") w1
  /\ fetch_page (status_env 399) "u" empty_world = Returned (Some "body") w1
  /\ fetch_page (status_env 600) "u" empty_world = Returned (Some "body") w1
  /\ fetch_page (status_env 404) "u" empty_world
     = Returned None {| cache := {["u" := None]}; requests_made := 1; clock_reads := 0;
                        trace := [EvGet (fetch_request "u")] |}.
Proof. repeat split; reflexivity. Qed.

(** C7 (amended). A call for a URL that is not memoised sends exactly one
    GET, with timeout 12 and the static non-empty identification header;
    a transport error and every status from 400 to 599 give the same absent
    result, an answer with any other status gives its body; nothing is
    retried, and the result (absent included) is memoised.  A call for a memoised URL returns
    the memoised result and sends nothing.  No call raises. *)
Theorem fetch_page_spec (E : environment) (url : string) (w : world) :
  match cache w !! url with
  | Some r => fetch_page E url w = Returned r w
  | None =>
      exists r : option string,
        fetch_page E url w
        = Returned r {| cache := <[url := r]> (cache w);
                        requests_made := S (requests_made w);
                        clock_reads := clock_reads w;
                        trace := (trace w ++ [EvGet (fetch_request url)])%list |}
        /\ match http_get E (requests_made w) (fetch_request url) with
           | TransportError => r = None
           | HttpResponse status body =>
               r = if (400 <=? status) && (status <? 600) then None else Some body
           end
  end
  /\ req_url (fetch_request url) = url
  /\ req_timeout (fetch_request url) = 12
  /\ req_headers (fetch_request url) = [("User-Agent", user_agent)]
  /\ user_agent <> "".
Proof.
  split; [|repeat split; discriminate].
  destruct (cache w !! url) as [r|] eqn:Hc.
  - apply fetch_page_hit, Hc.
  - rewrite (fetch_page_miss E url w Hc). cbn zeta. eexists. split; [reflexivity|].
    destruct (http_get E (requests_made w) (fetch_request url)); reflexivity.
Qed.

(** What the loop needs to know about a call of [fetch_page]: it returns,
    does not read the clock, and adds only requests to the trace. *)
Lemma fetch_page_returns (E : environment) (url : string) (w : world) :
  exists r w1 evs,
    fetch_page E url w = Returned r w1
    /\ clock_reads w1 = clock_reads w
    /\ trace w1 = (trace w ++ evs)%list
    /\ progress_calls evs = []
    /\ extract_calls evs = [].
Proof.
  destruct (cache w !! url) as [r|] eqn:Hc.
  - exists r, w, []. rewrite (fetch_page_hit E url w r Hc), app_nil_r. auto.
  - rewrite (fetch_page_miss E url w Hc). cbn zeta.
    eexists _, _, [EvGet (fetch_request url)]. repeat split; reflexivity.
Qed.

(** ** Category scraper *)

Lemma append_rows_eq (category_key timestamp : string) (items : list item)
    (acc : list raw_row * list cleaned_row) :
  append_rows category_key timestamp items acc
  = if forallb price_ok items
    then inr ((fst acc ++ List.map (make_raw_row category_key timestamp) items)%list,
              (snd acc ++ List.map (cleaned_row_of category_key timestamp) items)%list)
    else inl ValueError.
Proof.
  revert acc. induction items as [|it items IH]; intros [r c]; cbn [append_rows forallb].
  - cbn [List.map fst snd]. rewrite !app_nil_r. reflexivity.
  - assert (Hok : price_ok it
                  = match clean_price_to_int (it_price_raw it) with
                    | inr _ => true
                    | inl _ => false
                    end) by reflexivity.
    assert (Hrow : forall p, clean_price_to_int (it_price_raw it) = inr p ->
                     cleaned_row_of category_key timestamp it
                     = make_cleaned_row category_key timestamp it p).
    { intros p Hp. unfold cleaned_row_of, price_of. rewrite Hp. reflexivity. }
    rewrite Hok.
    destruct (clean_price_to_int (it_price_raw it)) as [e|price_clean] eqn:Hp.
    + cbn [andb]. f_equal. eapply clean_price_to_int_exn, Hp.
    + cbn [andb]. rewrite IH. cbn [fst snd List.map].
      rewrite (Hrow price_clean eq_refl), <- !app_assoc. reflexivity.
Qed.

Lemma time_sleep_eq (E : environment) (seconds : Q) (w : world) :
  time_sleep E seconds w
  = match sleep_exn E seconds with
    | Some e => Raised e w
    | None => Returned tt (record_event (EvSleep seconds) w)
    end.
Proof.
  unfold time_sleep, sleep_exn. destruct (sleep_error E seconds); [reflexivity|].
  destruct (Qle_bool 0 seconds); reflexivity.
Qed.

Lemma truthy_true_inv (r : option string) :
  truthy r = true -> exists html, r = Some html /\ html <> "".
Proof.
  destruct r as [[|c s]|]; simpl; try discriminate.
  intros _. eexists. split; [reflexivity|discriminate].
Qed.

Lemma progress_calls_app (l1 l2 : list event) :
  progress_calls (l1 ++ l2) = (progress_calls l1 ++ progress_calls l2)%list.
Proof. apply omap_app. Qed.

Lemma extract_calls_app (l1 l2 : list event) :
  extract_calls (l1 ++ l2) = (extract_calls l1 ++ extract_calls l2)%list.
Proof. apply omap_app. Qed.

Lemma get_calls_app (l1 l2 : list event) :
  get_calls (l1 ++ l2) = (get_calls l1 ++ get_calls l2)%list.
Proof. apply omap_app. Qed.

Lemma sleep_calls_app (l1 l2 : list event) :
  sleep_calls (l1 ++ l2) = (sleep_calls l1 ++ sleep_calls l2)%list.
Proof. apply omap_app. Qed.

Lemma fetch_page_effect (E : environment) (url : string) (w : world) :
  exists r w1 evs,
    fetch_page E url w = Returned r w1
    /\ clock_reads w1 = clock_reads w
    /\ trace w1 = (trace w ++ evs)%list
    /\ (evs = [] \/ evs = [EvGet (fetch_request url)])
    /\ cache w ⊆ cache w1
    /\ cache w1 !! url = Some r
    /\ (is_Some (cache w !! url) -> w1 = w).
Proof.
  destruct (cache w !! url) as [r|] eqn:Hc.
  - exists r, w, []. rewrite (fetch_page_hit E url w r Hc), app_nil_r.
    repeat split; auto.
  - rewrite (fetch_page_miss E url w Hc). cbn zeta.
    eexists _, _, [EvGet (fetch_request url)]. split; [reflexivity|].
    cbn [cache clock_reads trace]. repeat split; auto.
    + apply insert_subseteq, Hc.
    + apply lookup_insert_eq.
    + intros [x Hx]. discriminate Hx.
Qed.

Lemma sublist_head_app {A : Type} (l1 l2 rest : list A) (x : A) :
  l1 `sublist_of` [x] -> l2 `sublist_of` rest -> (l1 ++ l2)%list `sublist_of` x :: rest.
Proof. intros H1 H2. change (x :: rest) with ([x] ++ rest)%list. apply sublist_app; assumption. Qed.

Lemma sublist_head_only {A : Type} (l rest : list A) (x : A) :
  l `sublist_of` [x] -> l `sublist_of` x :: rest.
Proof.
  intros H. rewrite <- (app_nil_r l). apply sublist_head_app; [exact H|apply sublist_nil_l].
Qed.

Section Loop.

Context (E : environment) (url_base category_key : string) (max_pages : Z)
        (sleep : Q) (progress_callback : bool).

Local Abbreviation loop :=
  (scrape_pages E url_base category_key max_pages sleep progress_callback).

(** One turn of the loop, with the binds unfolded. *)
Lemma scrape_pages_S (n : nat) (page : Z) (acc : list raw_row * list cleaned_row)
    (w : world) :
  loop (S n) page acc w
  = match fetch_page E (page_url url_base page) w with
    | Raised e w1 => Raised e w1
    | Returned r w1 =>
        if truthy r then
          let html := default "" r in
          let w2 := record_event (EvExtract html) w1 in
          match extract_items_from_page_text E html with
          | [] => Returned acc w2
          | it :: its =>
              let items := it :: its in
              let timestamp := timestamp_now E (clock_reads w2) in
              let w3 := record_event EvNow
                          {| cache := cache w2; requests_made := requests_made w2;
                             clock_reads := S (clock_reads w2); trace := trace w2 |} in
              if forallb price_ok items then
                let acc' :=
                  ((fst acc ++ List.map (make_raw_row category_key timestamp) items)%list,
                   (snd acc ++ List.map (cleaned_row_of category_key timestamp) items)%list) in
                let w4 := after_callback progress_callback max_pages page
                            (length (fst acc) + length items)
                            (length (snd acc) + length items) w3 in
                match sleep_exn E sleep with
                | Some e => Raised e w4
                | None => loop n (page + 1) acc' (record_event (EvSleep sleep) w4)
                end
              else Raised ValueError w3
          end
        else Returned acc w1
    end.
Proof.
  cbn [scrape_pages]. unfold bind at 1.
  destruct (fetch_page E (page_url url_base page) w) as [r w1|e w1]; [|reflexivity].
  destruct (truthy r); [|reflexivity]. cbn [negb].
  unfold call_extract, bind, log, ret. cbn zeta.
  destruct (extract_items_from_page_text E (default "" r)) as [|it its] eqn:Hx;
    [reflexivity|].
  unfold now_isoformat. rewrite append_rows_eq.
  destruct (forallb price_ok (it :: its)); [|reflexivity].
  unfold lift, ret. cbn [fst snd]. rewrite !length_app, !length_map.
  unfold after_callback.
  destruct progress_callback; unfold bind, log; rewrite time_sleep_eq;
    destruct (sleep_exn E sleep); reflexivity.
Qed.

Lemma page_gave_weaken (memo memo' : gmap string (option string)) (page : Z)
    (items : list item) :
  memo ⊆ memo' -> page_gave E url_base memo page items ->
  page_gave E url_base memo' page items.
Proof.
  intros Hsub (html & Hl & Hne & Hx). exists html.
  split; [eapply lookup_weaken; eassumption|]. split; assumption.
Qed.

Lemma batches_of_pages_weaken (memo memo' : gmap string (option string))
    (batches : list (list item)) :
  memo ⊆ memo' ->
  forall page, batches_of_pages E url_base memo page batches ->
               batches_of_pages E url_base memo' page batches.
Proof.
  intros Hsub. induction batches as [|items rest IH]; intros page; cbn [batches_of_pages].
  - trivial.
  - intros (Hg & Hne & Hok & Hrest).
    split; [eapply page_gave_weaken; eassumption|]. repeat split; auto.
Qed.

Lemma after_callback_world (page : Z) (nr nc : nat) (w : world) :
  let w' := after_callback progress_callback max_pages page nr nc w in
  cache w' = cache w /\ clock_reads w' = clock_reads w
  /\ requests_made w' = requests_made w
  /\ exists evs, trace w' = (trace w ++ evs)%list
                 /\ get_calls evs = [] /\ sleep_calls evs = []
                 /\ extract_calls evs = []
                 /\ progress_calls evs
                    = (if progress_callback then [(page, max_pages, nr, nc)] else []).
Proof.
  cbn zeta. unfold after_callback. destruct progress_callback.
  - repeat split. exists [EvProgress page max_pages nr nc]. repeat split.
  - repeat split. exists []. rewrite app_nil_r. repeat split.
Qed.

Local Abbreviation facts :=
  (loop_facts E url_base category_key max_pages sleep progress_callback).

(** What every run of the loop does, whether it returns or raises. *)
Lemma scrape_pages_facts (n : nat) :
  forall (page : Z) (acc : list raw_row * list cleaned_row) (w : world),
    exists batches evs, facts n page acc w (loop n page acc w) batches evs.
Proof.
  induction n as [|n IH]; intros page acc w.
  - exists [], []. unfold loop_facts. cbn [scrape_pages ret outcome_world].
    cbn [batches_of_pages progress_of_batches raw_of_batches cleaned_of_batches
         length pages_from List.map].
    rewrite !app_nil_r.
    split; [reflexivity|]. split; [reflexivity|]. split; [lia|]. split; [exact I|].
    split; [destruct progress_callback; reflexivity|].
    split; [constructor|]. split; [cbn; lia|]. split; [apply sublist_nil_l|].
    split; [reflexivity|].
    split; [destruct acc; reflexivity|]. split; [lia|]. split; [reflexivity|].
    split; [intros H; contradiction|]. intros _ H. contradiction.
  - rewrite scrape_pages_S.
    destruct (fetch_page_effect E (page_url url_base page) w)
      as (r & w1 & evs1 & Hf & Hc1 & Ht1 & Hev1 & Hsub1 & Hlook & _).
    rewrite Hf.
    assert (Hg1 : get_calls evs1 `sublist_of` [fetch_request (page_url url_base page)])
      by (destruct Hev1 as [-> | ->]; [apply sublist_nil_l|reflexivity]).
    assert (Hs1 : sleep_calls evs1 = []) by (destruct Hev1 as [-> | ->]; reflexivity).
    assert (Hx1 : extract_calls evs1 = []) by (destruct Hev1 as [-> | ->]; reflexivity).
    assert (Hp1 : progress_calls evs1 = []) by (destruct Hev1 as [-> | ->]; reflexivity).
    destruct (truthy r) eqn:Htr.
    + destruct (truthy_true_inv r Htr) as (html & -> & Hne).
      change (default "" (Some html)) with html. cbn zeta.
      destruct (extract_items_from_page_text E html) as [|it its] eqn:Hex.
      * (* empty extraction *)
        exists [], (evs1 ++ [EvExtract html])%list. unfold loop_facts.
        cbn [outcome_world batches_of_pages progress_of_batches raw_of_batches
             cleaned_of_batches length pages_from List.map trace cache clock_reads
             record_event].
        rewrite !app_nil_r, Ht1, <- app_assoc, progress_calls_app, extract_calls_app,
          get_calls_app, sleep_calls_app, Hp1, Hx1, Hs1.
        split; [reflexivity|]. split; [exact Hsub1|]. split; [lia|]. split; [exact I|].
        split; [destruct progress_callback; reflexivity|].
        split; [cbn; repeat constructor; exact Hne|]. split; [cbn; lia|].
        split; [cbn; rewrite app_nil_r; apply sublist_head_only, Hg1|].
        split; [discriminate|].
        split; [destruct acc; reflexivity|]. split; [lia|]. split; [reflexivity|].
        split; [intros H; contradiction|]. intros H. discriminate H.
      * set (items := it :: its) in *.
        set (w2 := record_event (EvExtract html) w1).
        set (w3 := record_event EvNow _).
        assert (Hk3 : clock_reads w3 = S (clock_reads w)) by (unfold w3, w2; cbn; lia).
        assert (Hc3 : cache w3 = cache w1) by reflexivity.
        assert (Ht3 : trace w3 = (trace w ++ evs1 ++ [EvExtract html; EvNow])%list).
        { unfold w3, w2. cbn [trace record_event]. rewrite Ht1, <- !app_assoc. reflexivity. }
        assert (Hgave : forall memo, cache w1 ⊆ memo ->
                          page_gave E url_base memo page items).
        { intros memo Hm. exists html. split; [eapply lookup_weaken; eassumption|].
          split; [exact Hne|exact Hex]. }
        destruct (forallb price_ok items) eqn:Hok.
        -- match goal with |- context [after_callback _ _ ?p ?a ?b w3] =>
             destruct (after_callback_world p a b w3)
               as (Hcc & Hck & _ & evs4 & Ht4 & Hg4 & Hs4 & Hx4 & Hp4);
             cbn zeta in Hcc, Hck, Ht4;
             set (w4 := after_callback progress_callback max_pages p a b w3) in *
           end.
           destruct (sleep_exn E sleep) as [e|] eqn:Hsl.
           ++ (* time.sleep raises *)
              exists [items], (evs1 ++ [EvExtract html; EvNow] ++ evs4)%list.
              unfold loop_facts. cbn [outcome_world].
              split; [rewrite Ht4, Ht3, <- !app_assoc; reflexivity|].
              split; [rewrite Hcc, Hc3; exact Hsub1|].
              split; [cbn; lia|].
              split; [cbn [batches_of_pages]; rewrite Hcc, Hc3;
                      repeat split; [apply Hgave; reflexivity|discriminate|exact Hok]|].
              split; [rewrite !progress_calls_app, Hp1, Hp4;
                      destruct progress_callback; reflexivity|].
              split; [rewrite !extract_calls_app, Hx1, Hx4; cbn;
                      repeat constructor; exact Hne|].
              split; [rewrite !extract_calls_app, Hx1, Hx4; cbn; lia|].
              split; [rewrite !get_calls_app, Hg4; cbn; rewrite app_nil_r;
                      apply sublist_head_only, Hg1|].
              split; [discriminate|].
              exists 1%nat, 0%nat. split; [|split].
              ** right. split; [exact Hsl|]. split; [exists items; reflexivity|].
                 split; reflexivity.
              ** rewrite Hck, Hk3. lia.
              ** rewrite !sleep_calls_app, Hs1, Hs4. reflexivity.
           ++ (* the loop goes on *)
              match goal with |- context [loop n (page + 1) ?a ?v] =>
                destruct (IH (page + 1) a v)
                  as (batches & evs & Ht & Hsub & Hlen & Hbp & Hpr & Hxne & Hxl & Hg
                      & Hnil & Hfin);
                set (o := loop n (page + 1) a v) in *
              end.
              cbn [trace cache clock_reads record_event fst snd] in *.
              exists (items :: batches),
                (evs1 ++ [EvExtract html; EvNow] ++ evs4 ++ [EvSleep sleep] ++ evs)%list.
              unfold loop_facts.
              assert (Hmono : cache w1 ⊆ cache (outcome_world o))
                by (etrans; [|exact Hsub]; rewrite Hcc, Hc3; reflexivity).
              split; [rewrite Ht, Ht4, Ht3, <- !app_assoc; reflexivity|].
              split; [etrans; [exact Hsub1|exact Hmono]|].
              split; [cbn; lia|].
              split; [cbn [batches_of_pages];
                      repeat split; [apply Hgave, Hmono|discriminate|exact Hok|exact Hbp]|].
              split.
              { rewrite !progress_calls_app, Hp1, Hp4, Hpr.
                destruct progress_callback; [|reflexivity].
                cbn [progress_of_batches]. rewrite !length_app, !length_map. reflexivity. }
              split.
              { rewrite !extract_calls_app, Hx1, Hx4. cbn.
                constructor; [exact Hne|exact Hxne]. }
              split; [rewrite !extract_calls_app, Hx1, Hx4, !length_app; cbn; lia|].
              split.
              { rewrite !get_calls_app, Hg4. cbn [pages_from List.map]. cbn.
                apply sublist_head_app; assumption. }
              split; [discriminate|].
              destruct o as [res w'|e w']; cbn [outcome_world] in *.
              ** destruct Hfin as (Hres & Hclk & Hsleep & Hsome & Hlast).
                 split.
                 { rewrite Hres. cbn [raw_of_batches cleaned_of_batches].
                   rewrite Hck, Hk3. unfold w2. cbn [clock_reads record_event].
                   rewrite Hc1, <- !app_assoc. reflexivity. }
                 split; [rewrite Hclk, Hck, Hk3; cbn; lia|].
                 split; [rewrite !sleep_calls_app, Hs1, Hs4, Hsleep; reflexivity|].
                 split; [intros _; exact Hsl|].
                 intros Hall _. cbn [length] in Hall.
                 destruct n as [|n'].
                 --- rewrite (Hnil eq_refl), app_nil_r, !app_assoc. apply last_snoc.
                 --- rewrite !app_assoc, last_app, Hlast; [reflexivity|lia|discriminate].
              ** destruct Hfin as (reads & sleeps & Hcause & Hclk & Hsleep).
                 exists (S reads), (S sleeps). split; [|split].
                 --- destruct Hcause as [(-> & -> & -> & _ & its' & Hg' & Hbad)
                                        |(Hse & _)].
                     +++ left. split; [reflexivity|]. split; [reflexivity|].
                         split; [reflexivity|]. split; [intros _; exact Hsl|].
                         exists its'. split; [|exact Hbad].
                         cbn [length]. 
                         replace (page + Z.of_nat (S (length batches)))
                           with (page + 1 + Z.of_nat (length batches)) by lia.
                         exact Hg'.
                     +++ congruence.
                 --- rewrite Hclk, Hck, Hk3. lia.
                 --- rewrite !sleep_calls_app, Hs1, Hs4, Hsleep. reflexivity.
        -- (* int refuses a price text *)
           exists [], (evs1 ++ [EvExtract html; EvNow])%list.
           unfold loop_facts. cbn [outcome_world].
           split; [exact Ht3|]. split; [rewrite Hc3; exact Hsub1|].
           split; [cbn; lia|]. split; [exact I|].
           split; [rewrite progress_calls_app, Hp1; destruct progress_callback; reflexivity|].
           split; [rewrite extract_calls_app, Hx1; cbn; repeat constructor; exact Hne|].
           split; [rewrite extract_calls_app, Hx1; cbn; lia|].
           split; [rewrite get_calls_app; cbn; rewrite app_nil_r;
                   apply sublist_head_only, Hg1|].
           split; [discriminate|].
           exists 1%nat, 0%nat. split; [|split].
           ++ left. split; [reflexivity|]. split; [reflexivity|].
              split; [reflexivity|]. split; [intros H; contradiction|].
              exists items. split; [|exact Hok].
              cbn [length Z.of_nat]. rewrite Z.add_0_r, Hc3. apply Hgave. reflexivity.
           ++ rewrite Hk3. lia.
           ++ rewrite sleep_calls_app, Hs1. reflexivity.
    + (* fetch failure, or an empty content *)
      exists [], evs1. unfold loop_facts.
      cbn [outcome_world batches_of_pages progress_of_batches raw_of_batches
           cleaned_of_batches length pages_from List.map].
      rewrite !app_nil_r, Hp1, Hx1, Hs1.
      split; [exact Ht1|]. split; [exact Hsub1|]. split; [lia|]. split; [exact I|].
      split; [destruct progress_callback; reflexivity|].
      split; [constructor|]. split; [cbn; lia|].
      split; [apply sublist_head_only, Hg1|]. split; [discriminate|].
      split; [destruct acc; reflexivity|]. split; [lia|]. split; [reflexivity|].
      split; [intros H; contradiction|]. intros H. discriminate H.
Qed.




(** A run that returned can be replayed from any world that kept its memo
    table: the same pages are processed with the same items, and nothing is
    requested. *)
Lemma scrape_pages_replay (n : nat) :
  forall (page : Z) (acc res : list raw_row * list cleaned_row) (w w' : world),
    loop n page acc w = Returned res w' ->
    exists batches : list (list item),
      res = ((fst acc ++ raw_of_batches E category_key (clock_reads w) batches)%list,
             (snd acc ++ cleaned_of_batches E category_key (clock_reads w) batches)%list)
      /\ forall (acc2 : list raw_row * list cleaned_row) (w2 : world),
           cache w' ⊆ cache w2 ->
           exists (w2' : world) (evs : list event),
             loop n page acc2 w2
             = Returned
                 ((fst acc2 ++ raw_of_batches E category_key (clock_reads w2) batches)%list,
                  (snd acc2 ++ cleaned_of_batches E category_key (clock_reads w2) batches)%list)
                 w2'
             /\ cache w2' = cache w2
             /\ requests_made w2' = requests_made w2
             /\ trace w2' = (trace w2 ++ evs)%list
             /\ get_calls evs = [].
Proof.
  induction n as [|n IH]; intros page acc res w w' Hrun.
  - injection Hrun as <- <-. exists []. cbn [raw_of_batches cleaned_of_batches].
    rewrite !app_nil_r. split; [destruct acc; reflexivity|].
    intros acc2 w2 _. exists w2, []. rewrite !app_nil_r.
    repeat split. destruct acc2; reflexivity.
  - rewrite scrape_pages_S in Hrun.
    destruct (fetch_page_effect E (page_url url_base page) w)
      as (r & w1 & evs1 & Hf & Hc1 & _ & _ & _ & Hlook & _).
    rewrite Hf in Hrun. destruct (truthy r) eqn:Htr.
    + destruct (truthy_true_inv r Htr) as (html & -> & Hne).
      change (default "" (Some html)) with html in Hrun. cbn zeta in Hrun.
      destruct (extract_items_from_page_text E html) as [|it its] eqn:Hex.
      * injection Hrun as <- <-. exists [].
        cbn [raw_of_batches cleaned_of_batches]. rewrite !app_nil_r.
        split; [destruct acc; reflexivity|].
        intros acc2 w2 Hsub. cbn [cache record_event] in Hsub.
        exists (record_event (EvExtract html) w2), [EvExtract html].
        rewrite scrape_pages_S,
          (fetch_page_hit E _ w2 _ (lookup_weaken _ _ _ _ Hlook Hsub)), Htr.
        change (default "" (Some html)) with html. cbn zeta. rewrite Hex, !app_nil_r.
        repeat split. destruct acc2; reflexivity.
      * destruct (forallb price_ok (it :: its)) eqn:Hok; [|discriminate Hrun].
        destruct (sleep_exn E sleep) eqn:Hsl; [discriminate Hrun|].
        match type of Hrun with loop n (page + 1) ?a ?v = _ =>
          destruct (IH (page + 1) a res v w' Hrun) as (batches & Hres & Hreplay);
          destruct (scrape_pages_facts n (page + 1) a v)
            as (bs & es & _ & Hmono & _)
        end.
        rewrite Hrun in Hmono. cbn [outcome_world] in Hmono.
        assert (Hmono1 : cache w1 ⊆ cache w').
        { etrans; [|exact Hmono]. unfold after_callback.
          destruct progress_callback; reflexivity. }
        assert (Hk : forall v p a b,
                   clock_reads (record_event (EvSleep sleep)
                      (after_callback progress_callback max_pages p a b v))
                   = clock_reads v)
          by (intros; unfold after_callback; destruct progress_callback; reflexivity).
        exists ((it :: its) :: batches). split.
        { rewrite Hres. cbn [fst snd raw_of_batches cleaned_of_batches].
          rewrite Hk. cbn [clock_reads record_event]. rewrite Hc1, <- !app_assoc.
          reflexivity. }
        intros acc2 w2 Hsub.
        rewrite scrape_pages_S,
          (fetch_page_hit E _ w2 _ (lookup_weaken _ _ _ _ Hlook (transitivity Hmono1 Hsub))),
          Htr.
        change (default "" (Some html)) with html. cbn zeta. rewrite Hex, Hok, Hsl.
        match goal with |- context [loop n (page + 1) ?a ?v] =>
          destruct (Hreplay a v) as (w2' & evs & Hrun2 & Hcache2 & Hreq2 & Htr2 & Hget2)
        end.
        { unfold after_callback. destruct progress_callback; exact Hsub. }
        exists w2'.
        exists ([EvExtract html; EvNow]
                ++ (if progress_callback
                    then [EvProgress page max_pages
                            (length (fst acc2) + length (it :: its))
                            (length (snd acc2) + length (it :: its))]
                    else [])
                ++ [EvSleep sleep] ++ evs)%list.
        rewrite Hrun2, Hcache2, Hreq2, Htr2. unfold after_callback.
        split; [|split; [|split; [|split]]].
        -- f_equal. cbn [fst snd raw_of_batches cleaned_of_batches].
           destruct progress_callback; cbn [clock_reads record_event];
             rewrite <- !app_assoc; reflexivity.
        -- destruct progress_callback; reflexivity.
        -- destruct progress_callback; reflexivity.
        -- destruct progress_callback; cbn [trace record_event];
             rewrite <- !app_assoc; reflexivity.
        -- rewrite !get_calls_app, Hget2. destruct progress_callback; reflexivity.
    + injection Hrun as <- <-. exists [].
      cbn [raw_of_batches cleaned_of_batches]. rewrite !app_nil_r.
      split; [destruct acc; reflexivity|].
      intros acc2 w2 Hsub. exists w2, [].
      rewrite scrape_pages_S,
        (fetch_page_hit E _ w2 _ (lookup_weaken _ _ _ _ Hlook Hsub)), Htr, !app_nil_r.
      repeat split. destruct acc2; reflexivity.
Qed.

End Loop.

Lemma raw_of_batches_pages (E : environment) (category_key : string)
    (batches : list (list item)) (clock : nat) :
  raw_of_batches E category_key clock batches
  = concat (imap (page_raw_rows E category_key clock) batches).
Proof.
  revert clock. induction batches as [|items rest IH]; intros clock; [reflexivity|].
  cbn [raw_of_batches imap concat]. rewrite IH. unfold page_raw_rows at 2.
  rewrite Nat.add_0_r. f_equal. f_equal. apply imap_ext.
  intros k x _. unfold page_raw_rows. simpl. do 3 f_equal. lia.
Qed.

Lemma cleaned_of_batches_pages (E : environment) (category_key : string)
    (batches : list (list item)) (clock : nat) :
  cleaned_of_batches E category_key clock batches
  = concat (imap (page_cleaned_rows E category_key clock) batches).
Proof.
  revert clock. induction batches as [|items rest IH]; intros clock; [reflexivity|].
  cbn [cleaned_of_batches imap concat]. rewrite IH. unfold page_cleaned_rows at 2.
  rewrite Nat.add_0_r. f_equal. f_equal. apply imap_ext.
  intros k x _. unfold page_cleaned_rows. simpl. do 3 f_equal. lia.
Qed.

Lemma batches_of_pages_lookup (E : environment) (url_base : string)
    (memo : gmap string (option string)) (batches : list (list item)) :
  forall (page : Z) (k : nat) (items : list item),
    batches_of_pages E url_base memo page batches ->
    batches !! k = Some items ->
    page_gave E url_base memo (page + Z.of_nat k) items
    /\ items <> []
    /\ forallb price_ok items = true.
Proof.
  induction batches as [|b bs IH]; intros page k items Hb Hk; [discriminate Hk|].
  destruct Hb as (Hg & Hne & Hok & Hrest). destruct k as [|k]; cbn in Hk.
  - injection Hk as <-. rewrite Z.add_0_r. auto.
  - replace (page + Z.of_nat (S k)) with (page + 1 + Z.of_nat k) by lia.
    eapply IH; eassumption.
Qed.

Lemma scrape_category_eq (E : environment) (url_base category_key : string)
    (max_pages : Z) (sleep : Q) (progress_callback : bool) (w : world) :
  scrape_category E url_base category_key max_pages sleep progress_callback w
  = frames_of_loop E
      (scrape_pages E url_base category_key max_pages sleep progress_callback
         (Z.to_nat max_pages) 1 ([], []) w).
Proof.
  unfold scrape_category, frames_of_loop, bind.
  destruct (scrape_pages _ _ _ _ _ _ _ _ _ _) as [acc w'|e w']; [|reflexivity].
  unfold lift. destruct (DataFrame_cleaned E (snd acc)); reflexivity.
Qed.

(** A run of [scrape_category] is a run of its loop followed by the
    construction of the frames. *)
Lemma scrape_category_cases (E : environment) (url_base category_key : string)
    (max_pages : Z) (sleep : Q) (progress_callback : bool) (w : world) :
  exists o batches evs,
    scrape_category E url_base category_key max_pages sleep progress_callback w
    = frames_of_loop E o
    /\ loop_facts E url_base category_key max_pages sleep progress_callback
         (Z.to_nat max_pages) 1 ([], []) w o batches evs.
Proof.
  destruct (scrape_pages_facts E url_base category_key max_pages sleep progress_callback
              (Z.to_nat max_pages) 1 ([], []) w) as (batches & evs & H).
  eexists _, batches, evs. split; [apply scrape_category_eq|exact H].
Qed.

Lemma DataFrame_cleaned_inr (E : environment) (cleaned : list cleaned_row)
    (cleaned_df : list cleaned_frame_row) :
  DataFrame_cleaned E cleaned = inr cleaned_df ->
  exists convert,
    price_converter E (List.map cl_price cleaned) = inr convert
    /\ cleaned_df = List.map (make_frame_row convert) cleaned.
Proof.
  unfold DataFrame_cleaned.
  destruct (price_converter E (List.map cl_price cleaned)) as [e|convert];
    [discriminate|].
  intros [= <-]. exists convert. split; reflexivity.
Qed.

Lemma float64_of_int_small (n : Z) : Z.abs n < 2 ^ 53 -> float64_of_int n = n.
Proof.
  intros H. unfold float64_of_int.
  assert (Hl : Z.log2 (Z.abs n) - 52 <= 0).
  { destruct (Z.eq_dec (Z.abs n) 0) as [->|Hz]; [cbn; lia|].
    assert (Z.log2 (Z.abs n) < 53) by (apply Z.log2_lt_pow2; lia). lia. }
  apply Z.leb_le in Hl. rewrite Hl. reflexivity.
Qed.

(** The conversion of the price column keeps every price when all of them
    are below 2^53 in absolute value. *)
Lemma price_converter_exact (E : environment) (prices : list (option Z))
    (convert : option Z -> price_cell) :
  price_converter E prices = inr convert ->
  (forall n, In (Some n) prices -> Z.abs n < 2 ^ 53) ->
  forall o, In o prices -> cell_value (convert o) = o.
Proof.
  unfold price_converter. intros Hc Hsmall o Hin.
  destruct (forallb is_None prices) eqn:Hnone.
  - injection Hc as <-. rewrite forallb_forall in Hnone.
    specialize (Hnone o Hin). destruct o; [discriminate Hnone|reflexivity].
  - assert (Hfit : forallb fits_int64_or_None prices = true).
    { apply forallb_forall. intros [n|] Hn; [|reflexivity].
      specialize (Hsmall n Hn). unfold fits_int64_or_None, fits_int64. lia. }
    rewrite Hfit in Hc.
    destruct (existsb is_None prices); injection Hc as <-;
      destruct o as [n|]; cbn [cell_value]; try reflexivity.
    f_equal. apply float64_of_int_small, Hsmall, Hin.
Qed.

Lemma cleaned_rows_aligned (E : environment) (category_key : string)
    (batches : list (list item)) :
  forall clock : nat,
    Forall (fun items => forallb price_ok items = true) batches ->
    Forall2 (fun r c =>
               clean_price_to_int (raw_price_raw r) = inr (cl_price c)
               /\ cl_category c = raw_category r
               /\ cl_name c = raw_name r
               /\ cl_address c = raw_address r
               /\ cl_image_link c = raw_image_link r
               /\ cl_scraped_at c = raw_scraped_at r)
      (raw_of_batches E category_key clock batches)
      (cleaned_of_batches E category_key clock batches).
Proof.
  induction batches as [|items rest IH]; intros clock Hok;
    cbn [raw_of_batches cleaned_of_batches]; [constructor|].
  inversion Hok as [|? ? Hitems Hrest]; subst.
  apply Forall2_app; [|apply IH, Hrest].
  clear IH Hok Hrest. induction items as [|it items IH]; cbn [List.map]; [constructor|].
  cbn [forallb] in Hitems. apply andb_prop in Hitems as [Hit Hitems].
  constructor; [|apply IH, Hitems].
  cbn [make_raw_row cleaned_row_of make_cleaned_row raw_price_raw cl_price cl_category
       cl_name cl_address cl_image_link cl_scraped_at raw_category raw_name raw_address
       raw_image_link raw_scraped_at].
  unfold price_of, price_ok in *.
  destruct (clean_price_to_int (it_price_raw it)); [discriminate Hit|].
  repeat split; reflexivity.
Qed.

Lemma batches_of_pages_prices (E : environment) (url_base : string)
    (memo : gmap string (option string)) (batches : list (list item)) :
  forall page : Z,
    batches_of_pages E url_base memo page batches ->
    Forall (fun items => forallb price_ok items = true) batches
    /\ Forall (fun items => items <> []) batches.
Proof.
  induction batches as [|b bs IH]; intros page Hb; [split; constructor|].
  destruct Hb as (_ & Hne & Hok & Hrest). destruct (IH _ Hrest).
  split; constructor; assumption.
Qed.

(** C1: the failing input.  One page with two cards, one priced
    9007199254740993 FCFA and one without a price in digits: the normaliser
    gives 9007199254740993 and absent, and the cleaned frame holds the float
    9007199254740992.0 and NaN. *)
Theorem scrape_category_price_rounded :
  match scrape_category rounding_env "u" "dogs" 1 0 false empty_world with
  | Returned (raw, cleaned) _ =>
      List.map raw_price_raw raw = [Some "9007199254740993 FCFA"; Some "sur demande"]
      /\ List.map (fun r => clean_price_to_int (raw_price_raw r)) raw
         = [inr (Some 9007199254740993); inr None]
      /\ List.map cf_price cleaned = [PriceFloat 9007199254740992; PriceNaN]
  | Raised _ _ => False
  end.
Proof. vm_compute. repeat split; reflexivity. Qed.

(** The state machine describes the loop: a result it gives is the result
    of the loop. *)
Lemma scrape_run_sound (E : environment) (url_base category_key : string)
    (max_pages : Z) (sleep : Q) (progress_callback : bool)
    (n : nat) (page : Z) (acc res : list raw_row * list cleaned_row) (w w' : world) :
  scrape_run E url_base category_key max_pages sleep progress_callback
    n page acc w res w' ->
  scrape_pages E url_base category_key max_pages sleep progress_callback n page acc w
  = Returned res w'.
Proof.
  induction 1 as [page acc w|n page acc w r w1 Hf Ht|n page acc w html w1 Hf Ht Hx
                 |n page acc w html w1 items timestamp w2 acc' w3 w4 res w'
                    Hf Ht Hx Hne Hnow Happ Hacc Hcb Hsl Hrun IH].
  - reflexivity.
  - rewrite scrape_pages_S, Hf, Ht. reflexivity.
  - rewrite scrape_pages_S, Hf, Ht. change (default "" (Some html)) with html.
    cbn zeta. rewrite Hx. reflexivity.
  - rewrite scrape_pages_S, Hf, Ht. change (default "" (Some html)) with html.
    cbn zeta. rewrite Hx.
    destruct items as [|it its]; [contradiction|].
    rewrite append_rows_eq in Happ.
    destruct (forallb price_ok (it :: its)); [|discriminate Happ].
    rewrite time_sleep_eq in Hsl.
    destruct (sleep_exn E sleep); [discriminate Hsl|].
    injection Hsl as <-. injection Hnow as <- <-.
    rewrite <- IH. subst acc' w3. cbn [fst snd].
    rewrite !length_app, !length_map. reflexivity.
Qed.

(** The state machine leaves no choice: a state of the loop has one result. *)
Lemma scrape_run_functional (E : environment) (url_base category_key : string)
    (max_pages : Z) (sleep : Q) (progress_callback : bool)
    (n : nat) (page : Z) (acc res1 res2 : list raw_row * list cleaned_row)
    (w w1 w2 : world) :
  scrape_run E url_base category_key max_pages sleep progress_callback
    n page acc w res1 w1 ->
  scrape_run E url_base category_key max_pages sleep progress_callback
    n page acc w res2 w2 ->
  res1 = res2 /\ w1 = w2.
Proof.
  intros H1%scrape_run_sound H2%scrape_run_sound. rewrite H1 in H2.
  injection H2 as -> ->. split; reflexivity.
Qed.







(** The scenario of the specification: the rows of the pages before the
    stop are all there, and the run ends after the fetch of the page that
    gave nothing. *)
Example scrape_category_sample_run :
  match scrape_category sample_env "u" "dogs" 5 1 true empty_world with
  | Returned (raw, cleaned) w' =>
      List.map raw_name raw = [Some "Dog"; Some "Cat"; Some "Hen"]
      /\ List.map cf_price cleaned = [PriceFloat 12500; PriceNaN; PriceFloat 7]
      /\ List.map req_url (get_calls (trace w')) = ["u?page=1"; "u?page=2"; "u?page=3"]
      /\ extract_calls (trace w') = ["one"; "two"]
  | Raised _ _ => False
  end.
Proof. vm_compute. repeat split; reflexivity. Qed.

(** A negative delay, and a delay the platform cannot convert, raise after
    the first page. *)
Example scrape_category_bad_delay :
  match scrape_category sample_env "u" "dogs" 5 (-1) true empty_world with
  | Returned _ _ => False
  | Raised e w' => e = ValueError /\ length (extract_calls (trace w')) = 1%nat
  end
  /\ match scrape_category overflow_env "u" "dogs" 5 10000000000 true empty_world with
     | Returned _ _ => False
     | Raised e w' => e = OverflowError /\ length (extract_calls (trace w')) = 1%nat
     end.
Proof. vm_compute. repeat split; reflexivity. Qed.

Lemma map_concat_imap {A B C : Type} (f : B -> C) (l : list A) :
  forall g : nat -> A -> list B,
    List.map f (concat (imap g l)) = concat (imap (fun k x => List.map f (g k x)) l).
Proof.
  induction l as [|x l IH]; intros g; [reflexivity|].
  cbn [imap concat]. rewrite List.map_app, IH. reflexivity.
Qed.

Lemma frame_rows_pages (convert : option Z -> price_cell) (E : environment)
    (category_key : string) (batches : list (list item)) (clock : nat) :
  List.map (make_frame_row convert) (cleaned_of_batches E category_key clock batches)
  = concat (imap (page_frame_rows convert E category_key clock) batches).
Proof. rewrite cleaned_of_batches_pages. apply map_concat_imap. Qed.

Lemma page_raw_rows_scraped_at (E : environment) (category_key : string)
    (clock k : nat) (items : list item) (r : raw_row) :
  In r (page_raw_rows E category_key clock k items) ->
  raw_scraped_at r = timestamp_now E (clock + k).
Proof.
  unfold page_raw_rows. intros (it & <- & _)%in_map_iff. reflexivity.
Qed.

Lemma page_frame_rows_scraped_at (convert : option Z -> price_cell) (E : environment)
    (category_key : string) (clock k : nat) (items : list item)
    (c : cleaned_frame_row) :
  In c (page_frame_rows convert E category_key clock k items) ->
  cf_scraped_at c = timestamp_now E (clock + k).
Proof.
  unfold page_frame_rows, page_cleaned_rows. rewrite List.map_map.
  intros (it & <- & _)%in_map_iff. reflexivity.
Qed.

(** A run that returns: the frames, page by page. *)
Lemma scrape_category_returned (E : environment) (url_base category_key : string)
    (max_pages : Z) (sleep : Q) (progress_callback : bool) (w : world)
    (raw : list raw_row) (cleaned_df : list cleaned_frame_row) (w' : world) :
  scrape_category E url_base category_key max_pages sleep progress_callback w
  = Returned (raw, cleaned_df) w' ->
  exists (batches : list (list item)) (evs : list event)
         (convert : option Z -> price_cell),
    loop_facts E url_base category_key max_pages sleep progress_callback
      (Z.to_nat max_pages) 1 ([], []) w
      (Returned (raw_of_batches E category_key (clock_reads w) batches,
                 cleaned_of_batches E category_key (clock_reads w) batches) w')
      batches evs
    /\ price_converter E
         (List.map cl_price (cleaned_of_batches E category_key (clock_reads w) batches))
       = inr convert
    /\ raw = concat (imap (page_raw_rows E category_key (clock_reads w)) batches)
    /\ cleaned_df
       = concat (imap (page_frame_rows convert E category_key (clock_reads w)) batches).
Proof.
  intros Hrun.
  destruct (scrape_category_cases E url_base category_key max_pages sleep
              progress_callback w) as (o & batches & evs & Heq & Hfacts).
  rewrite Heq in Hrun. destruct o as [acc w1|e w1]; [|discriminate Hrun].
  cbn [frames_of_loop] in Hrun.
  destruct (DataFrame_cleaned E (snd acc)) as [e|df] eqn:Hdf; [discriminate Hrun|].
  injection Hrun as <- <- <-.
  pose proof Hfacts as (_ & _ & _ & _ & _ & _ & _ & _ & _ & Hres & _).
  cbn [fst snd app] in Hres. subst acc. cbn [fst snd] in *.
  destruct (DataFrame_cleaned_inr _ _ _ Hdf) as (convert & Hconv & ->).
  exists batches, evs, convert. split; [exact Hfacts|]. split; [exact Hconv|].
  split; [apply raw_of_batches_pages|apply frame_rows_pages].
Qed.






(** C5, as stated, fails: in this run of two pages the rows of the second
    page carry another timestamp than the rows of the first. *)
Lemma scraped_at_per_invocation_counterexample :
  match scrape_category sample_env "u" "dogs" 5 1 true empty_world with
  | Returned (raw, cleaned) _ =>
      List.map raw_scraped_at raw = ["t0"; "t0"; "t1"]
      /\ List.map cf_scraped_at cleaned = ["t0"; "t0"; "t1"]
  | Raised _ _ => False
  end.
Proof. vm_compute. split; reflexivity. Qed.

(** C5 (amended). Every record a run returns carries a scraped_at value (a
    string, never null) that is set once per page: the batch at position
    [k] holds the items of page [k + 1], the clock is read once for each of
    these pages, and all the records of that page, in the raw and in the
    cleaned frame, carry that reading. *)
Theorem scraped_at_once_per_page (E : environment) (url_base category_key : string)
    (max_pages : Z) (sleep : Q) (progress_callback : bool) (w : world) :
  match scrape_category E url_base category_key max_pages sleep progress_callback w with
  | Returned (raw, cleaned) w' =>
      exists (batches : list (list item)) (convert : option Z -> price_cell),
        raw = concat (imap (page_raw_rows E category_key (clock_reads w)) batches)
        /\ cleaned
           = concat (imap (page_frame_rows convert E category_key (clock_reads w)) batches)
        /\ (forall k items,
              batches !! k = Some items ->
              items <> []
              /\ page_gave E url_base (cache w') (1 + Z.of_nat k) items)
        /\ clock_reads w' = (clock_reads w + length batches)%nat
        /\ (forall k items r,
              batches !! k = Some items ->
              In r (page_raw_rows E category_key (clock_reads w) k items) ->
              raw_scraped_at r = timestamp_now E (clock_reads w + k))
        /\ (forall k items c,
              batches !! k = Some items ->
              In c (page_frame_rows convert E category_key (clock_reads w) k items) ->
              cf_scraped_at c = timestamp_now E (clock_reads w + k))
  | Raised _ _ => True
  end.
Proof.
  destruct (scrape_category _ _ _ _ _ _ _) as [[raw cleaned] w'|e w'] eqn:Hrun;
    [|exact I].
  destruct (scrape_category_returned _ _ _ _ _ _ _ _ _ _ Hrun)
    as (batches & evs & convert & Hfacts & _ & Hraw & Hdf).
  destruct Hfacts as (_ & _ & _ & Hbp & _ & _ & _ & _ & _ & _ & Hclk & _).
  cbn [outcome_world] in *.
  exists batches, convert. split; [exact Hraw|]. split; [exact Hdf|].
  split.
  { intros k items Hk.
    destruct (batches_of_pages_lookup _ _ _ _ _ _ _ Hbp Hk) as (Hg & Hne & _).
    split; assumption. }
  split; [exact Hclk|].
  split; [intros k items r _; apply page_raw_rows_scraped_at|].
  intros k items c _. apply page_frame_rows_scraped_at.
Qed.

(** C9. When the fetch of a page returns the empty string, the loop does
    what it does when the fetch returns nothing: it stops at once with the
    rows accumulated so far, in the world the fetch left, and the extractor
    was not called. *)
Theorem scrape_pages_empty_content (E : environment) (url_base category_key : string)
    (max_pages : Z) (sleep : Q) (progress_callback : bool)
    (n : nat) (page : Z) (acc : list raw_row * list cleaned_row)
    (w : world) (r : option string) (w1 : world) :
  fetch_page E (page_url url_base page) w = Returned r w1 ->
  r = Some "" \/ r = None ->
  scrape_pages E url_base category_key max_pages sleep progress_callback
    (S n) page acc w = Returned acc w1
  /\ extract_calls (trace w1) = extract_calls (trace w).
Proof.
  intros Hf Hr. split.
  - rewrite scrape_pages_S, Hf. destruct Hr as [-> | ->]; reflexivity.
  - destruct (fetch_page_returns E (page_url url_base page) w)
      as (r' & w1' & evs & Hf' & _ & Ht & _ & Hx).
    rewrite Hf in Hf'. injection Hf' as _ <-.
    rewrite Ht, extract_calls_app, Hx. apply app_nil_r.
Qed.

Lemma scrape_pages_empty_content_witness :
  scrape_pages blank_env "u" "dogs" 5 1 true 5 1 ([], []) empty_world
  = Returned ([], [])
      {| cache := {["u?page=1" := Some ""]}; requests_made := 1; clock_reads := 0;
         trace := [EvGet (fetch_request "u?page=1")] |}
  /\ extract_calls [EvGet (fetch_request "u?page=1")] = extract_calls [].
Proof.
  apply (scrape_pages_empty_content blank_env "u" "dogs" 5 1 true 4 1 ([], [])
           empty_world (Some "")
           {| cache := {["u?page=1" := Some ""]}; requests_made := 1; clock_reads := 0;
              trace := [EvGet (fetch_request "u?page=1")] |}).
  - reflexivity.
  - left. reflexivity.
Defined.




Lemma frames_of_loop_world (E : environment)
    (o : outcome (list raw_row * list cleaned_row)) :
  outcome_world (frames_of_loop E o) = outcome_world o.
Proof.
  destruct o as [acc w'|e w']; [|reflexivity]. cbn [frames_of_loop].
  destruct (DataFrame_cleaned E (snd acc)); reflexivity.
Qed.



(** The sample run: two pages contributed, two calls, none for page 3. *)
Example progress_callback_sample_run :
  match scrape_category sample_env "u" "dogs" 5 1 true empty_world with
  | Returned _ w' => progress_calls (trace w') = [(1, 5, 2%nat, 2%nat); (2, 5, 3%nat, 3%nat)]
  | Raised _ _ => False
  end.
Proof. vm_compute. reflexivity. Qed.

(* ===================================================================== *)
(** * Part III: further properties of the pipeline                        *)
(* ===================================================================== *)

(** ** Price normaliser: what the digit filter forgets *)

Lemma re_sub_non_digits_app (s1 s2 : string) :
  re_sub_non_digits (s1 ++ s2) = re_sub_non_digits s1 ++ re_sub_non_digits s2.
Proof.
  induction s1 as [|c r IH]; simpl; [reflexivity|].
  destruct (is_digit c); simpl; rewrite IH; reflexivity.
Qed.

Lemma string_app_nil_r (s : string) : s ++ "" = s.
Proof.
  induction s as [|c r IH]; [reflexivity|].
  change (String c (r ++ "") = String c r). rewrite IH. reflexivity.
Qed.

Lemma string_of_uint_all_digits (d : Decimal.uint) :
  all_digits (NilEmpty.string_of_uint d) = true.
Proof. induction d; simpl; auto. Qed.

Lemma int_acc_app (s1 s2 : string) (acc : Z) :
  int_acc acc (s1 ++ s2) = int_acc (int_acc acc s1) s2.
Proof. revert acc. induction s1 as [|c r IH]; intros acc; simpl; auto. Qed.

Lemma int_acc_shift (s : string) (acc : Z) :
  int_acc acc s = acc * 10 ^ Z.of_nat (String.length s) + int_acc 0 s.
Proof.
  revert acc. induction s as [|c r IH]; intros acc.
  - simpl. lia.
  - cbn [int_acc String.length]. rewrite (IH (10 * acc + digit_value c)).
    rewrite (IH (10 * 0 + digit_value c)).
    rewrite Nat2Z.inj_succ, Z.pow_succ_r by lia. ring.
Qed.

(** X1. Round trip with decimal printing: normalising the decimal text of
    a non-negative integer gives that integer back when the text has at most
    4300 digits, and raises ValueError when it has more. *)
Theorem clean_price_to_int_of_decimal (n : Z) :
  0 <= n ->
  clean_price_to_int (Some (str_of_int n))
  = if (4300 <? String.length (str_of_int n))%nat
    then inl ValueError
    else inr (Some n).
Proof.
  intros Hn. destruct n as [|p|p]; [reflexivity| |lia].
  rewrite clean_price_to_int_Some. unfold str_of_int. cbn [Z.to_int].
  unfold NilZero.string_of_int, NilZero.string_of_uint.
  pose proof (DecimalPos.Unsigned.to_uint_nonnil p) as Hnil.
  assert (Hs : (match Pos.to_uint p with
                | Decimal.Nil => "0"
                | _ => NilEmpty.string_of_uint (Pos.to_uint p)
                end) = NilEmpty.string_of_uint (Pos.to_uint p))
    by (destruct (Pos.to_uint p); [contradiction|reflexivity..]).
  rewrite Hs.
  rewrite (re_sub_non_digits_id _ (string_of_uint_all_digits (Pos.to_uint p))).
  rewrite int_acc_of_uint. unfold N.of_uint.
  rewrite DecimalPos.Unsigned.of_to.
  destruct (Pos.to_uint p); [contradiction|reflexivity..].
Qed.

Lemma clean_price_to_int_of_decimal_witness :
  clean_price_to_int (Some (str_of_int 12500))
  = if (4300 <? String.length (str_of_int 12500))%nat
    then inl ValueError
    else inr (Some 12500).
Proof. apply clean_price_to_int_of_decimal. lia. Defined.

(** X2. A character that is not a decimal digit has no effect wherever it
    stands: spaces, separators, a minus sign, a decimal point and currency
    letters are all dropped alike. *)
Theorem clean_price_to_int_ignores_non_digit (s1 s2 : string) (c : ascii) :
  is_digit c = false ->
  clean_price_to_int (Some (s1 ++ String c s2)) = clean_price_to_int (Some (s1 ++ s2)).
Proof.
  intros Hc. rewrite !clean_price_to_int_Some, !re_sub_non_digits_app.
  cbn [re_sub_non_digits]. rewrite Hc. reflexivity.
Qed.

Lemma clean_price_to_int_ignores_non_digit_witness :
  clean_price_to_int (Some ("12" ++ String "." "50")) = clean_price_to_int (Some ("12" ++ "50")).
Proof. apply clean_price_to_int_ignores_non_digit. reflexivity. Defined.

Lemma string_length_app (s1 s2 : string) :
  String.length (s1 ++ s2) = (String.length s1 + String.length s2)%nat.
Proof.
  induction s1 as [|c r IH]; [reflexivity|].
  change (S (String.length (r ++ s2)) = S (String.length r + String.length s2)).
  rewrite IH. reflexivity.
Qed.

(** X3. Digit groups collapse into one numeral: when the two parts of a
    text hold at most 4300 digits together, its value is the value of the
    first part shifted by the number of digits of the second, plus the
    value of the second, and a part without digits contributes nothing;
    with more digits [int] raises ValueError. *)
Theorem clean_price_to_int_app (s1 s2 : string) :
  clean_price_to_int (Some (s1 ++ s2))
  = if (4300 <? String.length (re_sub_non_digits s1)
                + String.length (re_sub_non_digits s2))%nat
    then inl ValueError
    else match clean_price_to_int (Some s1), clean_price_to_int (Some s2) with
         | inr (Some a), inr (Some b) =>
             inr (Some (a * 10 ^ Z.of_nat (String.length (re_sub_non_digits s2)) + b))
         | inr (Some a), inr None => inr (Some a)
         | inr None, r => r
         | inl e, _ => inl e
         | inr (Some _), inl e => inl e
         end.
Proof.
  rewrite !clean_price_to_int_Some, re_sub_non_digits_app.
  unfold int_max_str_digits.
  destruct (re_sub_non_digits s1) as [|c1 r1] eqn:E1;
    destruct (re_sub_non_digits s2) as [|c2 r2] eqn:E2.
  - reflexivity.
  - change ("" ++ String c2 r2) with (String c2 r2).
    change (String.length "") with 0%nat. rewrite Nat.add_0_l.
    destruct (4300 <? String.length (String c2 r2))%nat; reflexivity.
  - rewrite string_app_nil_r. change (String.length "") with 0%nat. rewrite Nat.add_0_r.
    destruct (4300 <? String.length (String c1 r1))%nat; reflexivity.
  - change (String c1 r1 ++ String c2 r2) with (String c1 (r1 ++ String c2 r2)).
    change (String c1 (r1 ++ String c2 r2)) with (String c1 r1 ++ String c2 r2) at 2 3.
    rewrite string_length_app.
    destruct (4300 <? String.length (String c1 r1) + String.length (String c2 r2))%nat
      eqn:Hall; [reflexivity|].
    apply Nat.ltb_ge in Hall.
    assert (H1 : (4300 <? String.length (String c1 r1))%nat = false)
      by (apply Nat.ltb_ge; lia).
    assert (H2 : (4300 <? String.length (String c2 r2))%nat = false)
      by (apply Nat.ltb_ge; lia).
    rewrite H1, H2. do 2 f_equal.
    rewrite int_acc_app. apply int_acc_shift.
Qed.

(** ** Listing extractor: what [get_text(strip=True)] yields *)

Lemma lstrip_head (s : string) (c : ascii) (r : string) :
  lstrip s = String c r -> is_space c = false.
Proof.
  induction s as [|a t IH]; simpl; [discriminate|].
  destruct (is_space a) eqn:Ha; [exact IH|]. intros [= <- _]. exact Ha.
Qed.

Lemma rstrip_cons (c : ascii) (r : string) :
  rstrip (String c r)
  = match rstrip r with
    | EmptyString => if is_space c then EmptyString else String c EmptyString
    | String a t => String c (String a t)
    end.
Proof. reflexivity. Qed.

Lemma rstrip_keeps_head (s : string) (c : ascii) (r : string) :
  rstrip s = String c r -> exists t, s = String c t.
Proof.
  destruct s as [|a t]; [discriminate|]. rewrite rstrip_cons.
  destruct (rstrip t); [destruct (is_space a)|]; intros [= <- _]; eauto.
Qed.

Lemma rstrip_idem (s : string) : rstrip (rstrip s) = rstrip s.
Proof.
  induction s as [|c r IH]; [reflexivity|]. rewrite rstrip_cons.
  destruct (rstrip r) as [|a t] eqn:Hr.
  - destruct (is_space c) eqn:Hc; [reflexivity|].
    rewrite rstrip_cons. simpl. rewrite Hc. reflexivity.
  - rewrite rstrip_cons, IH. reflexivity.
Qed.

Lemma lstrip_strip (s : string) : lstrip (strip s) = strip s.
Proof.
  unfold strip. destruct (rstrip (lstrip s)) as [|c r] eqn:Hs; [reflexivity|].
  destruct (rstrip_keeps_head _ _ _ Hs) as [t Ht].
  simpl. rewrite (lstrip_head _ _ _ Ht). reflexivity.
Qed.

Lemma rstrip_strip (s : string) : rstrip (strip s) = strip s.
Proof. apply rstrip_idem. Qed.

Lemma lstrip_fixed_app (p q : string) :
  p <> "" -> lstrip p = p -> lstrip (p ++ q) = p ++ q.
Proof.
  destruct p as [|c r]; [congruence|]. intros _ H.
  pose proof (lstrip_head _ _ _ H) as Hc.
  change (String c r ++ q) with (String c (r ++ q)). simpl. rewrite Hc. reflexivity.
Qed.

Lemma rstrip_fixed_app (q p : string) :
  p <> "" -> rstrip p = p -> rstrip (q ++ p) = q ++ p.
Proof.
  intros Hp H. induction q as [|c r IH]; [exact H|].
  change (String c r ++ p) with (String c (r ++ p)).
  rewrite rstrip_cons, IH.
  destruct (r ++ p) as [|a t] eqn:E; [|reflexivity].
  destruct r as [|b r'].
  - change (p = "") in E. congruence.
  - change (String b (r' ++ p) = "") in E. discriminate E.
Qed.

(** The concatenation of non-empty stripped pieces is stripped. *)
Lemma concat_stripped (pieces : list string) :
  Forall (fun p => p <> "" /\ lstrip p = p /\ rstrip p = p) pieces ->
  let t := fold_right String.append "" pieces in
  lstrip t = t /\ rstrip t = t.
Proof.
  induction 1 as [|p ps (Hne & Hl & Hr) _ IH]; [split; reflexivity|].
  cbn zeta in *. cbn [fold_right]. destruct IH as [IHl IHr]. split.
  - apply lstrip_fixed_app; assumption.
  - destruct (fold_right String.append "" ps) as [|a t] eqn:E.
    + rewrite string_app_nil_r. exact Hr.
    + apply rstrip_fixed_app; [discriminate|exact IHr].
Qed.

Lemma get_text_strip_stripped (n : node) : strip (get_text_strip n) = get_text_strip n.
Proof.
  unfold get_text_strip.
  assert (H : Forall (fun p => p <> "" /\ lstrip p = p /\ rstrip p = p)
                (List.filter (fun s => truthy (Some s)) (List.map strip (strings_of n)))).
  { apply Stdlib.Lists.List.Forall_forall. intros p [Hin Ht]%filter_In.
    apply in_map_iff in Hin as (s & <- & _).
    split; [|split; [apply lstrip_strip|apply rstrip_strip]].
    destruct (strip s); [discriminate Ht|discriminate]. }
  destruct (concat_stripped _ H) as [Hl Hr]. unfold strip at 1. rewrite Hl. exact Hr.
Qed.

(** X4. The texts of an extracted item are trimmed: a description, price
    text or location that is present has no leading or trailing white
    space (stripping it again changes nothing). *)
Theorem extract_item_texts_stripped (E : environment) (html_text : string) :
  Forall (fun it =>
            Forall (fun field =>
                      match field with
                      | Some s => strip s = s
                      | None => True
                      end) [it_name it; it_price_raw it; it_address it])
         (extract_items_from_page_text E html_text).
Proof.
  unfold extract_items_from_page_text. rewrite extract_items_from_soup_map.
  apply Stdlib.Lists.List.Forall_forall. intros it (card & <- & _)%in_map_iff.
  unfold extract_item; cbn [it_name it_price_raw it_address].
  repeat constructor;
    match goal with |- match option_map _ ?o with _ => _ end =>
      destruct o; simpl; [apply get_text_strip_stripped|exact I]
    end.
Qed.

Lemma is_space_not_digit (c : ascii) : is_space c = true -> is_digit c = false.
Proof. unfold is_space, is_digit. cbn zeta. lia. Qed.

Lemma re_sub_non_digits_lstrip (s : string) :
  re_sub_non_digits (lstrip s) = re_sub_non_digits s.
Proof.
  induction s as [|c r IH]; [reflexivity|]. simpl.
  destruct (is_space c) eqn:Hc; [|reflexivity].
  rewrite (is_space_not_digit c Hc). exact IH.
Qed.

Lemma re_sub_non_digits_rstrip (s : string) :
  re_sub_non_digits (rstrip s) = re_sub_non_digits s.
Proof.
  induction s as [|c r IH]; [reflexivity|]. rewrite rstrip_cons.
  cbn [re_sub_non_digits]. rewrite <- IH.
  destruct (rstrip r) as [|a t]; [|reflexivity].
  destruct (is_space c) eqn:Hc.
  - rewrite (is_space_not_digit c Hc). reflexivity.
  - reflexivity.
Qed.

Lemma re_sub_non_digits_strip (s : string) :
  re_sub_non_digits (strip s) = re_sub_non_digits s.
Proof. unfold strip. rewrite re_sub_non_digits_rstrip. apply re_sub_non_digits_lstrip. Qed.

Lemma re_sub_non_digits_get_text (n : node) :
  re_sub_non_digits (get_text_strip n)
  = re_sub_non_digits (fold_right String.append "" (strings_of n)).
Proof.
  unfold get_text_strip. induction (strings_of n) as [|s l IH]; [reflexivity|].
  cbn [List.map List.filter fold_right].
  rewrite re_sub_non_digits_app, <- IH, <- (re_sub_non_digits_strip s).
  destruct (strip s) as [|c r] eqn:Hs; cbn [truthy].
  - reflexivity.
  - cbn [fold_right]. rewrite re_sub_non_digits_app. reflexivity.
Qed.

(** X5. The cleaned price of a card depends only on the digits of the text
    nodes below its price element (plain strings and CDATA sections;
    comments and the text of script, style and template elements are not
    part of the text), in document order: how the text is split over nested
    tags and the white space that stripping removes make no difference;
    without a price element the cleaned price is absent. *)
Theorem cleaned_price_of_card (card : node) :
  clean_price_to_int (it_price_raw (extract_item card))
  = match find card "p" "ad__card-price" with
    | Some tag =>
        clean_price_to_int (Some (fold_right String.append "" (strings_of tag)))
    | None => inr None
    end.
Proof.
  unfold extract_item; cbn [it_price_raw].
  destruct (find card "p" "ad__card-price") as [tag|]; [|reflexivity].
  cbn [option_map]. rewrite !clean_price_to_int_Some, re_sub_non_digits_get_text.
  reflexivity.
Qed.

(** A comment and the text of a script element are not part of the text of
    a price element. *)
Example get_text_skips_comments :
  get_text_strip
    (Tag "p" (Some ["ad__card-price"]) ∅
       [NavigableString "12"; SpecialString "34"; NavigableString " 5 ";
        Tag "script" None ∅ [SpecialString "67"]])
  = "125".
Proof. reflexivity. Qed.

(** ** Page fetcher: the memo table *)

Lemma fetch_pages_cache (E : environment) (urls : list string) :
  forall (w w' : world) (rs : list (option string)),
    fetch_pages E urls w = Returned rs w' -> cache w ⊆ cache w'.
Proof.
  induction urls as [|url rest IH]; intros w w' rs H.
  - injection H as _ <-. reflexivity.
  - cbn [fetch_pages] in H. unfold bind at 1 in H.
    destruct (fetch_page_effect E url w) as (r & w1 & evs & Hf & _ & _ & _ & Hsub & _).
    rewrite Hf in H. unfold bind in H.
    destruct (fetch_pages E rest w1) as [rs' w2|e w2] eqn:Hrest; [|discriminate H].
    injection H as _ <-. etrans; [exact Hsub|]. eapply IH, Hrest.
Qed.

(** X6. The memo table is stable: what a call of [fetch_page] returned for
    a URL, a failure included, is what every later call for that URL
    returns, whatever was fetched in between and whatever the network would
    answer by then; the later call leaves the world as it is (no request). *)
Theorem fetch_page_stable (E : environment) (url : string) (urls : list string)
    (w w1 w2 : world) (r : option string) (rs : list (option string)) :
  fetch_page E url w = Returned r w1 ->
  fetch_pages E urls w1 = Returned rs w2 ->
  fetch_page E url w2 = Returned r w2.
Proof.
  intros Hf Hrest.
  destruct (fetch_page_effect E url w) as (r' & w1' & evs & Hf' & _ & _ & _ & _ & Hc & _).
  rewrite Hf in Hf'. injection Hf' as <- <-.
  apply fetch_page_hit. eapply lookup_weaken; [exact Hc|].
  eapply fetch_pages_cache, Hrest.
Qed.

Lemma fetch_page_stable_witness :
  fetch_page flaky_env "a"
    {| cache := <["b" := Some "one"]> {["a" := None]}; requests_made := 2;
       clock_reads := 0;
       trace := [EvGet (fetch_request "a"); EvGet (fetch_request "b")] |}
  = Returned None
      {| cache := <["b" := Some "one"]> {["a" := None]}; requests_made := 2;
         clock_reads := 0;
         trace := [EvGet (fetch_request "a"); EvGet (fetch_request "b")] |}.
Proof.
  apply (fetch_page_stable flaky_env "a" ["b"] empty_world
           {| cache := {["a" := None]}; requests_made := 1; clock_reads := 0;
              trace := [EvGet (fetch_request "a")] |}
           _ None [Some "one"]); reflexivity.
Defined.

(** ** Category scraper: requests, sleeps, replays *)

Lemma pages_from_length (page : Z) (n : nat) : length (pages_from page n) = n.
Proof. revert page. induction n as [|n IH]; intros page; simpl; [|rewrite IH]; reflexivity. Qed.

(** X7. Whatever happens, a run only requests pages of its own category:
    the requests it sends are, in this order and at most once each, among
    those for the pages 1, 2, ..., max_pages of [url_base]; so it sends at
    most max_pages requests (none when max_pages is not positive), and it
    calls the extractor at most max_pages times. *)
Theorem scrape_category_requests (E : environment) (url_base category_key : string)
    (max_pages : Z) (sleep : Q) (progress_callback : bool) (w : world) :
  exists evs : list event,
    trace (outcome_world
             (scrape_category E url_base category_key max_pages sleep
                progress_callback w))
    = (trace w ++ evs)%list
    /\ get_calls evs
       `sublist_of` List.map (fun p => fetch_request (page_url url_base p))
                      (pages_from 1 (Z.to_nat max_pages))
    /\ (length (get_calls evs) <= Z.to_nat max_pages)%nat
    /\ (length (extract_calls evs) <= Z.to_nat max_pages)%nat.
Proof.
  destruct (scrape_category_cases E url_base category_key max_pages sleep
              progress_callback w) as (o & batches & evs & Heq & Hfacts).
  rewrite Heq, frames_of_loop_world.
  destruct Hfacts as (Ht & _ & _ & _ & _ & _ & Hx & Hg & _).
  exists evs. split; [exact Ht|]. split; [exact Hg|]. split; [|lia].
  apply sublist_length in Hg. rewrite length_map, pages_from_length in Hg. exact Hg.
Qed.


Lemma cleaned_of_batches_prices (E : environment) (category_key : string)
    (batches : list (list item)) :
  forall clock1 clock2 : nat,
    List.map cl_price (cleaned_of_batches E category_key clock1 batches)
    = List.map cl_price (cleaned_of_batches E category_key clock2 batches).
Proof.
  induction batches as [|items rest IH]; intros clock1 clock2; [reflexivity|].
  cbn [cleaned_of_batches]. rewrite !List.map_app, !List.map_map.
  rewrite (IH (S clock1) (S clock2)). reflexivity.
Qed.

(** X9. Re-scraping replays the memo table: after a run that returned, a
    run with the same arguments, started in any later world that still has
    the memo table of the first one, sends no request and processes the same
    pages with the same items, stamped with new clock readings; its price
    column is converted the same way. *)
Theorem scrape_category_replay (E : environment) (url_base category_key : string)
    (max_pages : Z) (sleep : Q) (progress_callback : bool)
    (w w' : world) (res : list raw_row * list cleaned_frame_row) :
  scrape_category E url_base category_key max_pages sleep progress_callback w
  = Returned res w' ->
  exists (batches : list (list item)) (convert : option Z -> price_cell),
    res = (raw_of_batches E category_key (clock_reads w) batches,
           List.map (make_frame_row convert)
             (cleaned_of_batches E category_key (clock_reads w) batches))
    /\ forall w2 : world,
         cache w' ⊆ cache w2 ->
         exists (w2' : world) (evs : list event),
           scrape_category E url_base category_key max_pages sleep progress_callback w2
           = Returned (raw_of_batches E category_key (clock_reads w2) batches,
                       List.map (make_frame_row convert)
                         (cleaned_of_batches E category_key (clock_reads w2) batches)) w2'
           /\ cache w2' = cache w2
           /\ requests_made w2' = requests_made w2
           /\ trace w2' = (trace w2 ++ evs)%list
           /\ get_calls evs = [].
Proof.
  intros Hrun. rewrite scrape_category_eq in Hrun.
  destruct (scrape_pages _ _ _ _ _ _ _ _ _ _) as [acc w1|e w1] eqn:Hloop;
    [|discriminate Hrun].
  cbn [frames_of_loop] in Hrun.
  destruct (DataFrame_cleaned E (snd acc)) as [e|df] eqn:Hdf; [discriminate Hrun|].
  injection Hrun as <- <-.
  destruct (scrape_pages_replay E url_base category_key max_pages sleep
              progress_callback _ _ _ _ _ _ Hloop) as (batches & Hres & Hreplay).
  cbn [fst snd app] in Hres. subst acc. cbn [fst snd] in Hdf.
  destruct (DataFrame_cleaned_inr _ _ _ Hdf) as (convert & Hconv & ->).
  exists batches, convert. split; [reflexivity|].
  intros w2 Hsub.
  destruct (Hreplay ([], []) w2 Hsub) as (w2' & evs & Hrun2 & Hrest).
  exists w2', evs. split; [|exact Hrest].
  rewrite scrape_category_eq, Hrun2. cbn [frames_of_loop fst snd app].
  unfold DataFrame_cleaned.
  rewrite (cleaned_of_batches_prices E category_key batches (clock_reads w2)
             (clock_reads w)), Hconv.
  reflexivity.
Qed.

Lemma scrape_category_replay_witness :
  exists (batches : list (list item)) (convert : option Z -> price_cell),
    sample_run_result
    = (raw_of_batches sample_env "dogs" (clock_reads empty_world) batches,
       List.map (make_frame_row convert)
         (cleaned_of_batches sample_env "dogs" (clock_reads empty_world) batches))
    /\ forall w2 : world,
         cache sample_run_world ⊆ cache w2 ->
         exists (w2' : world) (evs : list event),
           scrape_category sample_env "u" "dogs" 5 1 true w2
           = Returned (raw_of_batches sample_env "dogs" (clock_reads w2) batches,
                       List.map (make_frame_row convert)
                         (cleaned_of_batches sample_env "dogs" (clock_reads w2) batches)) w2'
           /\ cache w2' = cache w2
           /\ requests_made w2' = requests_made w2
           /\ trace w2' = (trace w2 ++ evs)%list
           /\ get_calls evs = [].
Proof.
  apply (scrape_category_replay sample_env "u" "dogs" 5 1 true empty_world
           sample_run_world sample_run_result).
  vm_compute. reflexivity.
Defined.



Lemma raw_of_batches_invariant (E : environment) (category_key : string)
    (batches : list (list item)) (clock : nat) :
  Forall (fun r => raw_category r = category_key)
         (raw_of_batches E category_key clock batches).
Proof.
  revert clock. induction batches as [|items rest IH]; intros clock; [constructor|].
  cbn [raw_of_batches]. apply Forall_app. split; [|apply IH].
  apply Stdlib.Lists.List.Forall_forall. intros c (it & <- & _)%in_map_iff. reflexivity.
Qed.

Lemma clean_price_to_int_nonneg (o : option string) (n : Z) :
  clean_price_to_int o = inr (Some n) -> 0 <= n.
Proof.
  destruct o as [s|]; [|discriminate]. rewrite clean_price_to_int_Some.
  pose proof (re_sub_non_digits_all_digits s) as Hd.
  destruct (re_sub_non_digits s) as [|a t]; [discriminate|].
  destruct (int_max_str_digits <? _)%nat; [discriminate|].
  intros [= <-]. apply (int_acc_nonneg (String a t) 0); [lia|exact Hd].
Qed.

Lemma lookup_map {A B : Type} (f : A -> B) (l : list A) (i : nat) :
  List.map f l !! i = option_map f (l !! i).
Proof.
  revert i. induction l as [|x l IH]; intros [|i]; cbn; try reflexivity. apply IH.
Qed.

Lemma lookup_In {A : Type} (l : list A) (i : nat) (x : A) :
  l !! i = Some x -> In x l.
Proof.
  revert i. induction l as [|y l IH]; intros [|i] H; cbn in H; try discriminate.
  - injection H as ->. left. reflexivity.
  - right. eapply IH, H.
Qed.

(** X11. The frames of a run that returns are aligned: they have the same
    number of rows, and at every index the cleaned row has the category,
    name, address, image link and scraped_at of the raw row, the category
    being the key the run was called with, and as price the cell pandas
    makes of the normalised price of the raw row.  When every normalised
    price is below 2^53, that cell holds the normalised price itself (NaN
    or None for an absent one). *)
Theorem scrape_category_frames_aligned (E : environment)
    (url_base category_key : string) (max_pages : Z) (sleep : Q)
    (progress_callback : bool) (w : world) :
  match scrape_category E url_base category_key max_pages sleep progress_callback w with
  | Returned (raw, cleaned) _ =>
      length raw = length cleaned
      /\ exists convert : option Z -> price_cell,
           price_converter E (List.map normalized_price raw) = inr convert
           /\ (forall (i : nat) (r : raw_row),
                 raw !! i = Some r ->
                 exists (c : cleaned_frame_row) (p : option Z),
                   cleaned !! i = Some c
                   /\ clean_price_to_int (raw_price_raw r) = inr p
                   /\ cf_price c = convert p
                   /\ raw_category r = category_key
                   /\ cf_category c = raw_category r
                   /\ cf_name c = raw_name r
                   /\ cf_address c = raw_address r
                   /\ cf_image_link c = raw_image_link r
                   /\ cf_scraped_at c = raw_scraped_at r)
           /\ ((forall (r : raw_row) (n : Z),
                  In r raw -> normalized_price r = Some n -> n < 2 ^ 53) ->
               forall (i : nat) (r : raw_row) (c : cleaned_frame_row),
                 raw !! i = Some r -> cleaned !! i = Some c ->
                 clean_price_to_int (raw_price_raw r) = inr (cell_value (cf_price c)))
  | Raised _ _ => True
  end.
Proof.
  destruct (scrape_category _ _ _ _ _ _ _) as [[raw cleaned_df] w'|e w'] eqn:Hrun;
    [|exact I].
  destruct (scrape_category_returned _ _ _ _ _ _ _ _ _ _ Hrun)
    as (batches & evs & convert & Hfacts & Hconv & Hraw & Hdf).
  destruct Hfacts as (_ & _ & _ & Hbp & _).
  rewrite <- raw_of_batches_pages in Hraw. rewrite <- frame_rows_pages in Hdf.
  destruct (batches_of_pages_prices _ _ _ _ _ Hbp) as (Hok & _).
  pose proof (cleaned_rows_aligned E category_key batches (clock_reads w) Hok) as Hall.
  pose proof (raw_of_batches_invariant E category_key batches (clock_reads w)) as Hcat.
  set (cleaned := cleaned_of_batches E category_key (clock_reads w) batches) in *.
  rewrite <- Hraw in Hall, Hcat. clear Hraw. subst cleaned_df.
  assert (Hprices : List.map cl_price cleaned = List.map normalized_price raw).
  { clear -Hall. induction Hall as [|r c raw cleaned (Hp & _) _ IH]; [reflexivity|].
    cbn [List.map]. rewrite IH. unfold normalized_price. rewrite Hp. reflexivity. }
  split; [rewrite length_map; eapply Forall2_length, Hall|].
  exists convert. split; [rewrite <- Hprices; exact Hconv|].
  split.
  - intros i r Hr.
    destruct (Forall2_lookup_l _ _ _ _ _ Hall Hr) as (c & Hc & Hp & H1 & H2 & H3 & H4 & H5).
    exists (make_frame_row convert c), (cl_price c).
    split; [rewrite lookup_map, Hc; reflexivity|]. split; [exact Hp|].
    split; [reflexivity|].
    split; [eapply (proj1 (Stdlib.Lists.List.Forall_forall _ _) Hcat), lookup_In, Hr|].
    repeat split; assumption.
  - intros Hsmall i r c' Hr Hc'.
    destruct (Forall2_lookup_l _ _ _ _ _ Hall Hr) as (c & Hc & Hp & _).
    rewrite lookup_map, Hc in Hc'. injection Hc' as <-.
    rewrite Hp. f_equal. cbn [cf_price make_frame_row]. symmetry.
    apply (price_converter_exact E _ convert Hconv).
    + intros n Hn. rewrite Hprices in Hn. apply in_map_iff in Hn as (r0 & Hr0 & Hin).
      pose proof (Hsmall r0 n Hin Hr0) as Hlt.
      assert (0 <= n).
      { unfold normalized_price in Hr0.
        destruct (clean_price_to_int (raw_price_raw r0)) as [|p0] eqn:Hp0;
          [discriminate Hr0|].
        subst p0. eapply clean_price_to_int_nonneg, Hp0. }
      lia.
    + apply in_map_iff. exists c. split; [reflexivity|].
      eapply lookup_In, Hc.
Qed.

(** ** Dashboard *)

Lemma fold_left_min_spec (r : list Z) (x : Z) :
  In (fold_left Z.min r x) (x :: r)
  /\ Forall (fun p => fold_left Z.min r x <= p) (x :: r).
Proof.
  revert x. induction r as [|y r IH]; intros x; cbn [fold_left].
  - split; [left; reflexivity|]. constructor; [lia|constructor].
  - destruct (IH (Z.min x y)) as [Hin Hall].
    apply Forall_cons in Hall as [Hm Hall]. split.
    + destruct Hin as [Hin|Hin]; [|right; right; exact Hin].
      rewrite <- Hin. destruct (Z.min_spec x y) as [[_ ->]|[_ ->]];
        [left|right; left]; reflexivity.
    + constructor; [lia|]. constructor; [lia|exact Hall].
Qed.

Lemma fold_left_max_spec (r : list Z) (x : Z) :
  In (fold_left Z.max r x) (x :: r)
  /\ Forall (fun p => p <= fold_left Z.max r x) (x :: r).
Proof.
  revert x. induction r as [|y r IH]; intros x; cbn [fold_left].
  - split; [left; reflexivity|]. constructor; [lia|constructor].
  - destruct (IH (Z.max x y)) as [Hin Hall].
    apply Forall_cons in Hall as [Hm Hall]. split.
    + destruct Hin as [Hin|Hin]; [|right; right; exact Hin].
      rewrite <- Hin. destruct (Z.max_spec x y) as [[_ ->]|[_ ->]];
        [right; left|left]; reflexivity.
    + constructor; [lia|]. constructor; [lia|exact Hall].
Qed.

Lemma int_or_zero_Some (v : Z) : int_or_zero (Some v) = inr v.
Proof. unfold int_or_zero. destruct (Z.eqb_spec v 0) as [->|]; reflexivity. Qed.

(** The two bounds are the least and the greatest price of the frame; the
    computation fails exactly on a frame without any price. *)
Lemma price_bounds_cases (df : list cleaned_row) :
  match price_bounds df with
  | inl e => e = ValueError /\ omap cl_price df = []
  | inr (lo, hi) =>
      In lo (omap cl_price df) /\ In hi (omap cl_price df)
      /\ Forall (fun p => lo <= p <= hi) (omap cl_price df)
  end.
Proof.
  unfold price_bounds. cbn zeta.
  destruct (omap cl_price df) as [|x r]; [split; reflexivity|].
  cbn [series_min series_max]. rewrite !int_or_zero_Some.
  destruct (fold_left_min_spec r x) as [Hmin Hmins].
  destruct (fold_left_max_spec r x) as [Hmax Hmaxs].
  split; [exact Hmin|]. split; [exact Hmax|].
  rewrite Stdlib.Lists.List.Forall_forall in Hmins, Hmaxs |- *.
  intros p Hp. split; [apply Hmins|apply Hmaxs]; exact Hp.
Qed.

Lemma filter_filter_andb {A : Type} (f g : A -> bool) (l : list A) :
  List.filter f (List.filter g l) = List.filter (fun x => g x && f x) l.
Proof.
  induction l as [|x l IH]; [reflexivity|]. cbn [List.filter].
  destruct (g x); cbn [List.filter andb]; [destruct (f x)|]; rewrite IH; reflexivity.
Qed.

Lemma filter_all_true {A : Type} (f : A -> bool) (l : list A) :
  (forall x, In x l -> f x = true) -> List.filter f l = l.
Proof.
  induction l as [|x l IH]; intros H; [reflexivity|]. cbn [List.filter].
  rewrite (H x (or_introl eq_refl)), IH; [reflexivity|].
  intros y Hy. apply H. right. exact Hy.
Qed.

Lemma filter_sublist {A : Type} (f : A -> bool) (l : list A) :
  List.filter f l `sublist_of` l.
Proof.
  induction l as [|x l IH]; [constructor|]. cbn [List.filter].
  destruct (f x); [apply sublist_skip|apply sublist_cons]; exact IH.
Qed.

Lemma apply_filters_eq (re_compile : string -> exn + (string -> bool))
    (stored : list cleaned_row) (cat_sel : list string) (price_range : Z * Z)
    (addr_search : string) :
  apply_filters re_compile (List.filter price_in_bounds stored) cat_sel price_range
    addr_search
  = let keep := fun c => price_in_bounds c && isin cat_sel c
                         && between (fst price_range) (snd price_range) c in
    if truthy (Some addr_search)
    then match re_compile addr_search with
         | inl e => inl e
         | inr matches =>
             inr (List.filter (fun c => keep c && address_contains matches c) stored)
         end
    else inr (List.filter keep stored).
Proof.
  unfold apply_filters. cbn zeta.
  destruct (truthy (Some addr_search)); [destruct (re_compile addr_search)|];
    try reflexivity; rewrite !filter_filter_andb; f_equal;
    apply Stdlib.Lists.List.filter_ext; intros c; rewrite ?andb_assoc; reflexivity.
Qed.

(** X13. What the dashboard shows: nothing to show exactly when no row is
    stored; otherwise, if no stored row has a price in (0, 10 000 000] the
    script raises ValueError on the slider bounds; else the slider may
    raise, and so may the search when the text typed is not a regular
    expression; else the filtered frame is exactly the stored rows, in their
    stored order, whose price lies in (0, 10 000 000] and in the selected
    range, whose category is selected, and, when a search text is given,
    whose address is present and matched by the pattern.  Rows without a
    price never reach the view. *)
Theorem dashboard_spec (re_compile : string -> exn + (string -> bool))
    (multiselect : list string -> list string) (slider : Z -> Z -> exn + (Z * Z))
    (addr_search : string) (stored : list cleaned_row) :
  let cleaned_df := List.filter price_in_bounds stored in
  let cat_sel := multiselect (unique (List.map cl_category cleaned_df)) in
  match dashboard re_compile multiselect slider addr_search stored with
  | NoData => stored = []
  | Crash e =>
      stored <> []
      /\ match price_bounds cleaned_df with
         | inl _ => e = ValueError /\ cleaned_df = []
         | inr (lo, hi) =>
             slider lo hi = inl e
             \/ (exists price_range, slider lo hi = inr price_range)
                /\ addr_search <> ""
                /\ re_compile addr_search = inl e
         end
  | View df_f =>
      stored <> []
      /\ exists lo hi price_range,
           price_bounds cleaned_df = inr (lo, hi)
           /\ slider lo hi = inr price_range
           /\ (exists matches : string -> bool,
                 (addr_search <> "" -> re_compile addr_search = inr matches)
                 /\ df_f = List.filter
                             (fun c => price_in_bounds c && isin cat_sel c
                                       && between (fst price_range) (snd price_range) c
                                       && (negb (truthy (Some addr_search))
                                           || address_contains matches c))
                             stored)
           /\ df_f `sublist_of` stored
           /\ Forall (fun c => exists p, cl_price c = Some p /\ 0 < p <= MAX_ALLOWED) df_f
  end.
Proof.
  cbv zeta. destruct stored as [|c0 l]; [reflexivity|].
  unfold dashboard. cbv beta iota zeta.
  set (stored := c0 :: l).
  remember (List.filter price_in_bounds stored) as cleaned_df eqn:Hcdf.
  set (cat_sel := multiselect (unique (List.map cl_category cleaned_df))).
  assert (Hne : stored <> []) by discriminate.
  pose proof (price_bounds_cases cleaned_df) as Hb.
  destruct (price_bounds cleaned_df) as [e|[lo hi]].
  - split; [exact Hne|]. destruct Hb as [-> Hnil]. split; [reflexivity|].
    destruct cleaned_df as [|c l']; [reflexivity|].
    assert (Hin : In c (List.filter price_in_bounds stored))
      by (rewrite <- Hcdf; left; reflexivity).
    apply filter_In in Hin as [_ Hp]. unfold price_in_bounds in Hp.
    destruct (cl_price c) as [p|] eqn:Hcp; [|discriminate Hp].
    simpl in Hnil. rewrite Hcp in Hnil. discriminate Hnil.
  - destruct (slider lo hi) as [e|price_range] eqn:Hsl;
      [split; [exact Hne|left; reflexivity]|].
    pose proof (apply_filters_eq re_compile stored cat_sel price_range addr_search) as Heq.
    rewrite <- Hcdf in Heq. rewrite Heq. cbv zeta.
    assert (Hview : forall f : cleaned_row -> bool,
              List.filter (fun c => price_in_bounds c && isin cat_sel c
                                    && between (fst price_range) (snd price_range) c
                                    && f c) stored `sublist_of` stored
              /\ Forall (fun c => exists p, cl_price c = Some p /\ 0 < p <= MAX_ALLOWED)
                   (List.filter (fun c => price_in_bounds c && isin cat_sel c
                                          && between (fst price_range) (snd price_range) c
                                          && f c) stored)).
    { intros f. split; [apply filter_sublist|].
      apply Stdlib.Lists.List.Forall_forall. intros c [_ Hc]%filter_In.
      apply andb_prop in Hc as [Hc _]. apply andb_prop in Hc as [Hc _].
      apply andb_prop in Hc as [Hc _]. unfold price_in_bounds in Hc.
      destruct (cl_price c) as [p|]; [|discriminate Hc].
      exists p. split; [reflexivity|lia]. }
    destruct (truthy (Some addr_search)) eqn:Htr.
    + assert (Hs : addr_search <> "") by (intros ->; discriminate Htr).
      destruct (re_compile addr_search) as [e|matches] eqn:Hre.
      * split; [exact Hne|]. right. split; [eauto|]. split; [exact Hs|reflexivity].
      * split; [exact Hne|]. exists lo, hi, price_range.
        split; [reflexivity|]. split; [exact Hsl|].
        cbn [negb orb]. split; [exists matches; split; [auto|reflexivity]|].
        apply Hview.
    + split; [exact Hne|]. exists lo, hi, price_range.
      split; [reflexivity|]. split; [exact Hsl|].
      assert (Hs : addr_search = "") by (destruct addr_search; [reflexivity|discriminate Htr]).
      cbn [negb orb].
      assert (Hf : List.filter (fun c => price_in_bounds c && isin cat_sel c
                                         && between (fst price_range) (snd price_range) c)
                     stored
                   = List.filter (fun c => price_in_bounds c && isin cat_sel c
                                           && between (fst price_range) (snd price_range) c
                                           && true) stored)
        by (apply Stdlib.Lists.List.filter_ext; intros c; rewrite andb_true_r; reflexivity).
      rewrite Hf.
      split; [exists (fun _ => true); split; [intros H; contradiction|reflexivity]|].
      apply Hview.
Qed.

Lemma unique_from_In (l seen : list string) (x : string) :
  In x l -> In x seen \/ In x (unique_from seen l).
Proof.
  revert seen. induction l as [|y l IH]; intros seen; [intros []|].
  intros [->|Hin]; cbn [unique_from].
  - destruct (existsb (String.eqb x) seen) eqn:Hex.
    + left. apply existsb_exists in Hex as (z & Hz & Heq).
      apply String.eqb_eq in Heq. subst z. exact Hz.
    + right. left. reflexivity.
  - destruct (existsb (String.eqb y) seen).
    + apply IH, Hin.
    + destruct (IH (y :: seen) Hin) as [[->|Hs]|Hu].
      * right. left. reflexivity.
      * left. exact Hs.
      * right. right. exact Hu.
Qed.

(** X14. With the widgets left at their defaults (every category selected,
    the slider on its full range, no search text), and two stored prices in
    (0, 10 000 000] that differ, so that the bounds of the slider are in
    order, the view hides nothing: it is the list of all stored rows with a
    price in (0, 10 000 000]. *)
Theorem dashboard_default_view (re_compile : string -> exn + (string -> bool))
    (multiselect : list string -> list string) (slider : Z -> Z -> exn + (Z * Z))
    (stored : list cleaned_row) (c1 c2 : cleaned_row) :
  (forall options, multiselect options = options) ->
  (forall lo hi, lo < hi -> slider lo hi = inr (lo, hi)) ->
  In c1 (List.filter price_in_bounds stored) ->
  In c2 (List.filter price_in_bounds stored) ->
  cl_price c1 <> cl_price c2 ->
  dashboard re_compile multiselect slider "" stored
  = View (List.filter price_in_bounds stored).
Proof.
  intros Hms Hsl Hc1 Hc2 Hdiff.
  destruct stored as [|c0 l]; [destruct Hc1|].
  unfold dashboard. cbv beta iota zeta.
  set (stored := c0 :: l) in *.
  remember (List.filter price_in_bounds stored) as cleaned_df eqn:Hcdf.
  pose proof (price_bounds_cases cleaned_df) as Hb.
  assert (Hprice : forall c, In c cleaned_df ->
                     exists p, cl_price c = Some p /\ In p (omap cl_price cleaned_df)).
  { intros c Hc. pose proof Hc as Hc'. rewrite Hcdf in Hc'.
    apply filter_In in Hc' as [_ Hp].
    unfold price_in_bounds in Hp. destruct (cl_price c) as [p|] eqn:Hcp; [|discriminate Hp].
    exists p. split; [reflexivity|]. apply list_elem_of_In, list_elem_of_omap.
    exists c. split; [apply list_elem_of_In, Hc|exact Hcp]. }
  destruct (Hprice c1 Hc1) as (p1 & Hp1 & Hin1).
  destruct (Hprice c2 Hc2) as (p2 & Hp2 & Hin2).
  destruct (price_bounds cleaned_df) as [e|[lo hi]].
  - destruct Hb as [_ Hnil]. rewrite Hnil in Hin1. destruct Hin1.
  - destruct Hb as (_ & _ & Hall).
    rewrite Stdlib.Lists.List.Forall_forall in Hall.
    assert (Hlt : lo < hi).
    { pose proof (Hall p1 Hin1). pose proof (Hall p2 Hin2).
      assert (p1 <> p2) by congruence. lia. }
    rewrite (Hsl lo hi Hlt), Hms.
    unfold apply_filters. cbn [truthy fst snd]. f_equal.
    rewrite (filter_all_true (isin _) cleaned_df).
    + apply filter_all_true. intros c Hc.
      destruct (Hprice c Hc) as (p & Hcp & Hin). unfold between. rewrite Hcp.
      specialize (Hall p Hin). lia.
    + intros c Hc. unfold isin. apply existsb_exists. exists (cl_category c).
      split; [|apply String.eqb_refl].
      destruct (unique_from_In (List.map cl_category cleaned_df) [] (cl_category c))
        as [[]|Hu]; [apply in_map, Hc|exact Hu].
Qed.

Lemma dashboard_default_view_witness :
  dashboard sample_re_compile (fun options => options) untouched_slider "" sample_stored
  = View (List.filter price_in_bounds sample_stored).
Proof.
  apply (dashboard_default_view sample_re_compile (fun options => options)
           untouched_slider sample_stored
           {| cl_category := "dogs"; cl_name := Some "Dog"; cl_price := Some 12500;
              cl_address := Some "Dakar"; cl_image_link := None; cl_scraped_at := "t0" |}
           {| cl_category := "hens"; cl_name := Some "Hen"; cl_price := Some 7;
              cl_address := Some "Thies"; cl_image_link := None; cl_scraped_at := "t1" |}).
  - reflexivity.
  - intros lo hi H. unfold untouched_slider.
    apply Z.ltb_lt in H. rewrite H. reflexivity.
  - vm_compute. left. reflexivity.
  - vm_compute. right. left. reflexivity.
  - discriminate.
Defined.

(** The search box takes a regular expression: an opening parenthesis alone
    is no pattern, and the script raises; a slider whose bounds coincide
    (one price only in the view) raises as well. *)
Example dashboard_crashes :
  dashboard sample_re_compile (fun options => options) untouched_slider "(" sample_stored
  = Crash RegexError
  /\ dashboard sample_re_compile (fun options => options) untouched_slider ""
       (List.filter (fun c => String.eqb (cl_category c) "dogs") sample_stored)
     = Crash StreamlitAPIException.
Proof. split; reflexivity. Qed.

(** ** Listing extractor: which containers are cards *)

Lemma no_space_split (t u r v : string) :
  no_space t = true -> no_space u = true ->
  t ++ String " " r = u ++ String " " v -> t = u /\ r = v.
Proof.
  revert u. induction t as [|a t IH]; intros [|c u] Ht Hu H.
  - change (String " " r = String " " v) in H. injection H as ->. split; reflexivity.
  - change (String " " r = String c (u ++ String " " v)) in H. injection H as <- _.
    discriminate Hu.
  - change (String a (t ++ String " " r) = String " " v) in H. injection H as -> _.
    discriminate Ht.
  - change (String a (t ++ String " " r) = String c (u ++ String " " v)) in H.
    injection H as -> H. cbn [no_space] in Ht, Hu.
    apply andb_prop in Ht as [_ Ht]. apply andb_prop in Hu as [_ Hu].
    destruct (IH u Ht Hu H) as [-> ->]. split; reflexivity.
Qed.

Lemma no_space_no_split (s t r : string) :
  no_space s = true -> s <> t ++ String " " r.
Proof.
  revert t. induction s as [|a s IH]; intros [|c t] Hs H.
  - discriminate H.
  - discriminate H.
  - change (String a s = String " " r) in H. injection H as -> _. discriminate Hs.
  - change (String a s = String c (t ++ String " " r)) in H. injection H as _ H.
    cbn [no_space] in Hs. apply andb_prop in Hs as [_ Hs]. exact (IH t Hs H).
Qed.

Lemma join_space_cons2 (t t2 : string) (rest : list string) :
  join_space (t :: t2 :: rest) = t ++ String " " (join_space (t2 :: rest)).
Proof. reflexivity. Qed.

(** Peeling one token off a joined class value. *)
Lemma join_space_peel (tokens : list string) (u v : string) :
  forallb no_space tokens = true -> no_space u = true ->
  join_space tokens = u ++ String " " v ->
  exists rest, tokens = u :: rest /\ rest <> [] /\ join_space rest = v
               /\ forallb no_space rest = true.
Proof.
  intros Hall Hu H. destruct tokens as [|t [|t2 rest]].
  - destruct u; discriminate H.
  - cbn [forallb] in Hall. apply andb_prop in Hall as [Ht _].
    cbn [join_space] in H. exfalso. exact (no_space_no_split _ _ _ Ht H).
  - rewrite join_space_cons2 in H.
    cbn [forallb] in Hall. apply andb_prop in Hall as [Ht Hrest].
    destruct (no_space_split _ _ _ _ Ht Hu H) as [-> Hj].
    exists (t2 :: rest). repeat split; [discriminate|exact Hj|exact Hrest].
Qed.

(** X15. Which tags are ad cards: when no class token contains a space (the
    parser splits the attribute on white space), the class test of the
    container signature succeeds exactly for the class list col, s6, m4, l3
    in this order; a card with one more class, or with the same classes in
    another order, is not found. *)
Theorem container_class_exact (tokens : list string) :
  forallb no_space tokens = true ->
  class_matches (Some tokens) "col s6 m4 l3" = true
  <-> tokens = ["col"; "s6"; "m4"; "l3"].
Proof.
  intros Hall. split; [|intros ->; reflexivity].
  unfold class_matches. intros H. apply orb_prop in H as [H|H].
  - exfalso. apply existsb_exists in H as (t & Hin & Heq).
    apply String.eqb_eq in Heq. subst t.
    rewrite forallb_forall in Hall. specialize (Hall _ Hin). discriminate Hall.
  - apply String.eqb_eq in H.
    destruct (join_space_peel tokens "col" "s6 m4 l3" Hall eq_refl H)
      as (r1 & -> & _ & H1 & Hall1).
    destruct (join_space_peel r1 "s6" "m4 l3" Hall1 eq_refl H1)
      as (r2 & -> & _ & H2 & Hall2).
    destruct (join_space_peel r2 "m4" "l3" Hall2 eq_refl H2)
      as (r3 & -> & Hne & H3 & Hall3).
    destruct r3 as [|t [|t2 rest]]; [contradiction|cbn [join_space] in H3; subst t; reflexivity|].
    rewrite join_space_cons2 in H3. exfalso.
    refine (no_space_no_split "l3" t _ eq_refl _). symmetry. exact H3.
Qed.

Lemma container_class_exact_witness :
  class_matches (Some ["col"; "s6"; "m4"; "l3"; "featured"]) "col s6 m4 l3" = true
  <-> ["col"; "s6"; "m4"; "l3"; "featured"] = ["col"; "s6"; "m4"; "l3"].
Proof. apply container_class_exact. reflexivity. Defined.

Lemma price_in_bounds_price (stored : list cleaned_row) (p : Z) :
  In p (omap cl_price (List.filter price_in_bounds stored)) ->
  0 < p <= MAX_ALLOWED
  /\ exists c, In c stored /\ cl_price c = Some p.
Proof.
  intros Hin. apply list_elem_of_In, list_elem_of_omap in Hin as (c & Hc & Hcp).
  apply list_elem_of_In, filter_In in Hc as [Hc Hb].
  unfold price_in_bounds in Hb. rewrite Hcp in Hb. split; [lia|]. eauto.
Qed.

(** X12. The bounds of the price slider: when some stored row has a price
    in (0, 10 000 000], the two bounds are the least and the greatest such
    price, each the price of a stored row, so 0 < min <= max <= 10 000 000;
    when no stored row has one, computing the bounds raises ValueError (the
    minimum of an empty column is NaN, which [or 0] does not replace). *)
Theorem price_bounds_spec (stored : list cleaned_row) :
  let cleaned_df := List.filter price_in_bounds stored in
  match price_bounds cleaned_df with
  | inl e => e = ValueError /\ cleaned_df = []
  | inr (lo, hi) =>
      0 < lo /\ lo <= hi /\ hi <= MAX_ALLOWED
      /\ (exists c, In c stored /\ cl_price c = Some lo)
      /\ (exists c, In c stored /\ cl_price c = Some hi)
      /\ Forall (fun c => exists p, cl_price c = Some p /\ lo <= p <= hi) cleaned_df
  end.
Proof.
  cbv zeta. pose proof (price_bounds_cases (List.filter price_in_bounds stored)) as Hb.
  destruct (price_bounds _) as [e|[lo hi]].
  - destruct Hb as [-> Hnil]. split; [reflexivity|].
    destruct (List.filter price_in_bounds stored) as [|c l] eqn:Hf; [reflexivity|].
    assert (Hin : In c (List.filter price_in_bounds stored))
      by (rewrite Hf; left; reflexivity).
    apply filter_In in Hin as [_ Hp]. unfold price_in_bounds in Hp.
    destruct (cl_price c) as [p|] eqn:Hcp; [|discriminate Hp].
    simpl in Hnil. rewrite Hcp in Hnil. discriminate Hnil.
  - destruct Hb as (Hlo & Hhi & Hall).
    destruct (price_in_bounds_price stored lo Hlo) as [Hlo1 Hlo2].
    destruct (price_in_bounds_price stored hi Hhi) as [Hhi1 Hhi2].
    rewrite Stdlib.Lists.List.Forall_forall in Hall.
    pose proof (Hall lo Hlo) as Hle.
    split; [lia|]. split; [lia|]. split; [lia|]. split; [exact Hlo2|]. split; [exact Hhi2|].
    apply Stdlib.Lists.List.Forall_forall. intros c Hc.
    pose proof Hc as Hc'. apply filter_In in Hc' as [_ Hb].
    unfold price_in_bounds in Hb. destruct (cl_price c) as [p|] eqn:Hcp; [|discriminate Hb].
    exists p. split; [reflexivity|]. apply Hall.
    apply list_elem_of_In, list_elem_of_omap. exists c.
    split; [apply list_elem_of_In, Hc|exact Hcp].
Qed.
